(** * TravelEase server: the request handlers of [server.js] and of its
    second copy ([src/unnamed/part_000]) over an in-memory model of the two
    MongoDB collections.

    Layout:
    - [Js]: the JavaScript values a handler sees (JSON request bodies, Date
      objects, ObjectIds), truthiness, [new Date(v)], [ObjectId.isValid];
    - [Mongo]: the collection operations the handlers call ([insertOne],
      [find().sort().toArray()], [findOne], [updateOne], [deleteOne]);
    - [Http]: requests, responses, the state a handler runs in;
    - [Handlers]: the routes the two files share, then [ServerJs] and
      [Part000] with the routes in which the files differ;
    - the theorems. *)

From Stdlib Require Import ZArith NArith String Ascii List Permutation Sorted Lia.
From stdpp Require Import base option list gmap strings pretty.

Set Warnings "-register-all".

Local Open Scope string_scope.
Local Open Scope Z_scope.

(* ===================================================================== *)
(** ** JavaScript values                                                  *)
(* ===================================================================== *)

Module Js.

(** What [express.json()] hands to a handler as a field of [req.body]:
    the result of [JSON.parse]. Numbers are modelled by the integers: the
    handlers never compute with a number, they test it for truthiness, pass
    it to [new Date] or store it. *)
Inductive json : Type :=
  | JNull
  | JBool (b : bool)
  | JNumber (n : Z)
  | JString (s : string)
  | JArray (l : list json)
  | JObject (kvs : list (string * json)).

(** A field of a document as a handler hands it to the driver: a JSON
    value of the request, a [Date] object (its time value in ms since the
    epoch, [None] for the NaN time value of an "Invalid Date") or an
    [ObjectId] (its 12 bytes read as one number). *)
Inductive value : Type :=
  | VJson (j : json)
  | VDate (t : option Z)
  | VObjectId (o : N).

(** A JavaScript object used as a record: a request body, a document.
    A key that is not present reads as [undefined], here [None]. *)
Abbreviation jsobject := (gmap string json).
Abbreviation document := (gmap string value).

(** What a statement inside [try] ends with. *)
Inductive error : Type :=
  | TypeError (msg : string)
  | BSONError (msg : string)
  | MongoError (detail : string).

Inductive outcome (A : Type) : Type :=
  | Ok (a : A)
  | Throw (e : error).
Arguments Ok {A} a.
Arguments Throw {A} e.

Definition bind {A B} (m : outcome A) (k : A -> outcome B) : outcome B :=
  match m with
  | Ok a => k a
  | Throw e => Throw e
  end.

(** *** Equality of values is decidable (the driver compares [_id]s and
    reports whether an update changed the document). *)
Fixpoint json_eq_dec (a b : json) {struct a} : {a = b} + {a <> b}.
Proof.
  refine (
    match a, b with
    | JNull, JNull => left eq_refl
    | JBool x, JBool y => if decide (x = y) then left _ else right _
    | JNumber x, JNumber y => if decide (x = y) then left _ else right _
    | JString x, JString y => if decide (x = y) then left _ else right _
    | JArray xs, JArray ys =>
        if List.list_eq_dec json_eq_dec xs ys then left _ else right _
    | JObject xs, JObject ys =>
        if List.list_eq_dec
             (fun p q : string * json =>
                match decide (p.1 = q.1), json_eq_dec p.2 q.2 with
                | left e1, left e2 => left (_ : p = q)
                | _, _ => right _
                end) xs ys
        then left _ else right _
    | _, _ => right _
    end); try congruence; destruct p, q; simpl in *; congruence.
Defined.

#[export] Instance json_eqdec : EqDecision json := json_eq_dec.

#[export] Instance value_eq_dec : EqDecision value.
Proof. solve_decision. Defined.

(** *** Truthiness: [!x] and [x || y] on a property read. The falsy values
    a JSON body can hold are [undefined] (the key is absent), [null],
    [false], [0] and the empty string; arrays and objects are truthy. *)
Definition truthy (x : option json) : bool :=
  match x with
  | None => false
  | Some JNull => false
  | Some (JBool b) => b
  | Some (JNumber n) => negb (n =? 0)
  | Some (JString s) => negb (String.eqb s "")
  | Some (JArray _) => true
  | Some (JObject _) => true
  end.

(** [x || y] where [y] is a string literal. *)
Definition or_else (x : option json) (y : string) : json :=
  match x with
  | Some j => if truthy x then j else JString y
  | None => JString y
  end.

(** *** Conversion to a string or a primitive. A plain object converts
    through [Object.prototype.toString], which gives "[object Object]",
    unless it has an own property [toString]: that property holds a JSON
    value, which is not callable, [valueOf] gives no primitive either, and
    the conversion throws a TypeError. An array converts through [join]:
    [null] elements give the empty string, the others convert in turn. *)
Definition has_key (k : string) (kvs : list (string * json)) : bool :=
  existsb (fun kv => String.eqb (fst kv) k) kvs.

Fixpoint ToString (j : json) : outcome string :=
  match j with
  | JNull => Ok "null"
  | JBool b => Ok (if b then "true" else "false")
  | JNumber n => Ok (pretty n)
  | JString s => Ok s
  | JArray l =>
      (fix join (l : list json) : outcome string :=
         match l with
         | [] => Ok ""
         | x :: rest =>
             bind (match x with JNull => Ok "" | _ => ToString x end) (fun s =>
             match rest with
             | [] => Ok s
             | _ :: _ => bind (join rest) (fun r => Ok (s ++ "," ++ r))
             end)
         end) l
  | JObject kvs =>
      if has_key "toString" kvs
      then Throw (TypeError "Cannot convert object to primitive value")
      else Ok "[object Object]"
  end.

(** *** [new Date(v)] *)

(** [TimeClip]: a time value is at most 8.64e15 ms away from the epoch. *)
Definition TimeClip (n : Z) : option Z :=
  if Z.abs n <=? 8640000000000000 then Some n else None.

Section Date.

(** [Date.parse]: the milliseconds since the epoch a string denotes, [None]
    for NaN. Which strings parse is up to the JavaScript engine, so the
    parser is a parameter of the runtime. *)
Variable Date_parse : string -> option Z.

(** [new Date(v)] for one argument that is not a Date: the argument is
    converted to a primitive; a string is parsed, anything else is
    converted to a number and clipped. An unparsable string does not
    throw: it gives the NaN time value. Only the conversion to a primitive
    can throw. *)
Definition new_Date (v : option json) : outcome (option Z) :=
  match v with
  | None => Ok None
  | Some JNull => Ok (Some 0)
  | Some (JBool b) => Ok (Some (if b then 1 else 0))
  | Some (JNumber n) => Ok (TimeClip n)
  | Some (JString s) => Ok (Date_parse s)
  | Some (JArray l) => bind (ToString (JArray l)) (fun s => Ok (Date_parse s))
  | Some (JObject kvs) => bind (ToString (JObject kvs)) (fun s => Ok (Date_parse s))
  end.

End Date.

(** A parser to run the handlers with: the date-only form [YYYY-MM-DD]
    of the Date Time String Format, read as UTC midnight; every other
    string is unparsable. *)
Definition digit (c : ascii) : option Z :=
  let n := Z.of_N (N_of_ascii c) in
  if (48 <=? n) && (n <=? 57) then Some (n - 48) else None.

Fixpoint digits (acc : Z) (s : string) : option Z :=
  match s with
  | EmptyString => Some acc
  | String c s' =>
      match digit c with
      | Some d => digits (10 * acc + d) s'
      | None => None
      end
  end.

Definition is_leap (y : Z) : bool :=
  ((y mod 4 =? 0) && negb (y mod 100 =? 0)) || (y mod 400 =? 0).

Definition days_in_month (y m : Z) : Z :=
  if m =? 2 then (if is_leap y then 29 else 28)
  else if (m =? 4) || (m =? 6) || (m =? 9) || (m =? 11) then 30 else 31.

(** Days from 1970-01-01 to the civil date [y]-[m]-[d]. *)
Definition days_from_civil (y m d : Z) : Z :=
  let y' := if m <=? 2 then y - 1 else y in
  let era := y' / 400 in
  let yoe := y' - era * 400 in
  let doy := (153 * (if 2 <? m then m - 3 else m + 9) + 2) / 5 + d - 1 in
  let doe := yoe * 365 + yoe / 4 - yoe / 100 + doy in
  era * 146097 + doe - 719468.

Definition Date_parse_iso (s : string) : option Z :=
  if negb (String.length s =? 10)%nat then None
  else if negb (String.eqb (substring 4 1 s) "-" && String.eqb (substring 7 1 s) "-")
  then None
  else
    match digits 0 (substring 0 4 s), digits 0 (substring 5 2 s),
          digits 0 (substring 8 2 s) with
    | Some y, Some m, Some d =>
        if (1 <=? m) && (m <=? 12) && (1 <=? d) && (d <=? days_in_month y m)
        then Some (days_from_civil y m d * 86400000)
        else None
    | _, _, _ => None
    end.

(** *** ObjectId *)

Definition hex_digit (c : ascii) : option N :=
  let n := N_of_ascii c in
  (if (48 <=? n) && (n <=? 57) then Some (n - 48)
   else if (97 <=? n) && (n <=? 102) then Some (n - 87)
   else if (65 <=? n) && (n <=? 70) then Some (n - 55)
   else None)%N.

Fixpoint hex_value (acc : N) (s : string) : option N :=
  match s with
  | EmptyString => Some acc
  | String c s' =>
      match hex_digit c with
      | Some d => hex_value (16 * acc + d)%N s'
      | None => None
      end
  end.

(** [new ObjectId(id)] for a string: the string must be 24 hex digits
    (either case); anything else throws. *)
Definition new_ObjectId (id : string) : outcome N :=
  if (String.length id =? 24)%nat then
    match hex_value 0 id with
    | Some o => Ok o
    | None => Throw (BSONError "input must be a 24 character hex string")
    end
  else Throw (BSONError "input must be a 24 character hex string").

(** [toHexString()], which is how [res.json] prints an ObjectId: 24
    lower-case hex digits, the most significant first. *)
Definition hex_char (d : N) : ascii :=
  (if d <? 10 then ascii_of_N (48 + d) else ascii_of_N (87 + d))%N.

Fixpoint to_hex (digits : nat) (o : N) (rest : string) : string :=
  match digits with
  | O => rest
  | S k => to_hex k (o / 16)%N (String (hex_char (o mod 16)%N) rest)
  end.

Definition ObjectId_toHexString (o : N) : string := to_hex 24 o "".

(** [ObjectId.isValid(id)]: whether the constructor accepts [id]. *)
Definition ObjectId_isValid (id : string) : bool :=
  match new_ObjectId id with
  | Ok _ => true
  | Throw _ => false
  end.

End Js.

Import Js.

(* ===================================================================== *)
(** ** The persistence collections                                        *)
(* ===================================================================== *)

Module Mongo.

(** A collection is the list of its documents in insertion order
    (the order [find()] yields them in without a sort). *)

(** The filter [{ _id: new ObjectId(id) }]. *)
Definition by_id (o : N) (d : document) : bool :=
  bool_decide (d !! "_id" = Some (VObjectId o)).

(** The filter [{ userEmail: email }] for a string [email]: an equality
    match selects the documents whose field is that string, and those
    whose field is an array with that string among its elements. *)
Definition by_userEmail (email : string) (d : document) : bool :=
  match d !! "userEmail" with
  | Some (VJson (JString s)) => String.eqb s email
  | Some (VJson (JArray l)) => existsb (fun j => bool_decide (j = JString email)) l
  | _ => false
  end.

(** The key of [sort({ createdAt: -1 })]: the time value of a valid date.
    Every other value of this model sorts below every date (BSON orders
    null, numbers, strings, objects, arrays, ObjectIds and booleans before
    dates); such documents are kept in stored order among themselves. *)
Definition createdAt (d : document) : option Z :=
  match d !! "createdAt" with
  | Some (VDate (Some t)) => Some t
  | _ => None
  end.

(** [a] may stand before [b] in a descending listing. *)
Definition desc (a b : document) : bool :=
  match createdAt a, createdAt b with
  | Some x, Some y => y <=? x
  | Some _, None => true
  | None, Some _ => false
  | None, None => true
  end.

Fixpoint insert_desc (d : document) (l : list document) : list document :=
  match l with
  | [] => [d]
  | e :: l' => if desc d e then d :: e :: l' else e :: insert_desc d l'
  end.

Definition sort_desc (l : list document) : list document :=
  fold_right insert_desc [] l.

(** [find(query).sort({ createdAt: -1 }).toArray()] *)
Definition find_sorted (query : document -> bool) (docs : list document)
  : list document :=
  sort_desc (List.filter query docs).

(** [findOne(query)]: the first match, [None] for [null]. *)
Definition findOne (query : document -> bool) (docs : list document)
  : option document :=
  List.find query docs.

(** [insertOne(doc)]: a document without [_id] (absent or [null]) gets a
    generated ObjectId, here the next of a counter; a document that brings
    its own [_id] keeps it. The insert throws when a stored document has
    the same [_id]. The result is [insertedId], the collection and the
    counter afterwards. *)
Definition insertOne (doc : document) (docs : list document) (next : N)
  : outcome (value * list document * N) :=
  let '(id, next') :=
    match doc !! "_id" with
    | None | Some (VJson JNull) => (VObjectId next, (next + 1)%N)
    | Some v => (v, next)
    end in
  if existsb (fun d => bool_decide (d !! "_id" = Some id)) docs
  then Throw (MongoError "E11000 duplicate key error")
  else Ok (id, (docs ++ [<["_id" := id]> doc])%list, next').

(** The update document [{ $set: { k1: v1, ... } }], each value a property
    read of the request body. The driver serializes [undefined] as [null]
    (its [ignoreUndefined] option is off unless asked for). *)
Definition serialize (v : option json) : value :=
  VJson (default JNull v).

Definition apply_set (sets : list (string * option json)) (d : document)
  : document :=
  fold_left (fun d kv => <[fst kv := serialize (snd kv)]> d) sets d.

(** [updateOne(filter, { $set })]: the first match is updated;
    [(matchedCount, modifiedCount, collection afterwards)], where
    [modifiedCount] counts the document only if the update changed it. *)
Fixpoint updateOne (query : document -> bool) (sets : list (string * option json))
    (docs : list document) : Z * Z * list document :=
  match docs with
  | [] => (0, 0, [])
  | d :: ds =>
      if query d then
        let d' := apply_set sets d in
        (1, if bool_decide (d' = d) then 0 else 1, d' :: ds)
      else
        let '(matched, modified, ds') := updateOne query sets ds in
        (matched, modified, d :: ds')
  end.

(** [deleteOne(filter)]: the first match is removed;
    [(deletedCount, collection afterwards)]. *)
Fixpoint deleteOne (query : document -> bool) (docs : list document)
  : Z * list document :=
  match docs with
  | [] => (0, [])
  | d :: ds =>
      if query d then (1, ds)
      else let '(n, ds') := deleteOne query ds in (n, d :: ds')
  end.

End Mongo.

(* ===================================================================== *)
(** ** Requests, responses and the state of the server                    *)
(* ===================================================================== *)

Module Http.

(** What [res.send] / [res.json] is called with. *)
Inductive payload : Type :=
  | Text (s : string)
  | JsonObject (fields : list (string * value))
  | JsonDocument (d : document)
  | JsonArray (docs : list document).

Record response : Type := Response { status : Z; body : payload }.

(** [{ success: false, error: msg }] *)
Definition failure_body (msg : string) : payload :=
  JsonObject [("success", VJson (JBool false)); ("error", VJson (JString msg))].

(** The ten routes with what the handler reads of the request:
    [req.params.id], [req.query.email] ([None] when the parameter is
    absent), [req.body]. *)
Inductive request : Type :=
  | GET_root
  | GET_vehicles
  | POST_vehicles (body : jsobject)
  | GET_vehicles_id (id : string)
  | GET_my_vehicles (email : option string)
  | PUT_vehicles_id (id : string) (body : jsobject)
  | DELETE_vehicles_id (id : string)
  | POST_bookings (body : jsobject)
  | GET_my_bookings (email : option string)
  | DELETE_bookings_id (id : string).

(** The state a handler runs in: the two collections, the ObjectId
    generator, whether the database is failing while the request is served
    ([Some detail]: a call to it throws, whatever the cause: connection
    loss, a rejected command), and what [console.error] has printed. *)
Record server : Type := Server {
  vehiclesCollection : list document;
  bookingsCollection : list document;
  nextId : N;
  failing : option string;
  console : list (string * error)
}.

Definition set_vehicles (docs : list document) (next : N) (s : server) : server :=
  Server docs (bookingsCollection s) next (failing s) (console s).

Definition set_bookings (docs : list document) (next : N) (s : server) : server :=
  Server (vehiclesCollection s) docs next (failing s) (console s).

(** [console.error(line, error)] *)
Definition console_error (line : string) (e : error) (s : server) : server :=
  Server (vehiclesCollection s) (bookingsCollection s) (nextId s) (failing s)
         (console s ++ [(line, e)])%list.

(** The same server with the database answering ([None]) or failing. *)
Definition with_failing (f : option string) (s : server) : server :=
  Server (vehiclesCollection s) (bookingsCollection s) (nextId s) f (console s).

(** [await collection.op(...)]: the call throws when the database fails,
    otherwise it is the operation's own outcome. *)
Definition await {A} (s : server) (op : outcome A) : outcome A :=
  match failing s with
  | Some detail => Throw (MongoError detail)
  | None => op
  end.

(** [!email] for [req.query.email]. *)
Definition missing (email : option string) : bool :=
  match email with
  | None => true
  | Some e => String.eqb e ""
  end.

End Http.

Import Mongo Http.

(* ===================================================================== *)
(** ** The route handlers                                                 *)
(* ===================================================================== *)

(** A handler maps the state of the server to its response and the state
    afterwards. [now] is the time value [new Date()] reads off the clock. *)

Module Handlers.

(** The routes whose handlers are the same in both files. *)

Definition get_root (s : server) : response * server :=
  (Response 200 (Text "TravelEase server is running 🚗"), s).

Definition post_vehicles (now : Z) (body : jsobject) (s : server)
  : response * server :=
  if negb (truthy (body !! "vehicleName")) || negb (truthy (body !! "userEmail"))
  then (Response 400 (failure_body "vehicleName and userEmail are required"), s)
  else
    let vehicleData : document :=
      <["createdAt" := VDate (Some now)]> (VJson <$> body) in
    match await s (insertOne vehicleData (vehiclesCollection s) (nextId s)) with
    | Ok (insertedId, docs, next) =>
        (Response 200 (JsonObject
           [("success", VJson (JBool true));
            ("message", VJson (JString "Vehicle added successfully"));
            ("insertedId", insertedId)]),
         set_vehicles docs next s)
    | Throw e =>
        (Response 500 (failure_body "Failed to add vehicle"),
         console_error "Error in POST /vehicles:" e s)
    end.

Definition get_vehicles_id (id : string) (s : server) : response * server :=
  if negb (ObjectId_isValid id)
  then (Response 400 (failure_body "Invalid vehicle id"), s)
  else
    match bind (new_ObjectId id) (fun o =>
            await s (Ok (findOne (by_id o) (vehiclesCollection s)))) with
    | Ok None => (Response 404 (failure_body "Vehicle not found"), s)
    | Ok (Some vehicle) => (Response 200 (JsonDocument vehicle), s)
    | Throw e =>
        (Response 500 (failure_body "Failed to fetch vehicle"),
         console_error "Error in GET /vehicles/:id:" e s)
    end.

Definition get_my_vehicles (email : option string) (s : server)
  : response * server :=
  if missing email
  then (Response 400 (failure_body "Email query parameter is required"), s)
  else
    let query := by_userEmail (default "" email) in
    match await s (Ok (find_sorted query (vehiclesCollection s))) with
    | Ok vehicles => (Response 200 (JsonArray vehicles), s)
    | Throw e =>
        (Response 500 (failure_body "Failed to fetch user vehicles"),
         console_error "Error in GET /my-vehicles:" e s)
    end.

(** The [$set] of PUT /vehicles/:id: eight property reads of the body. *)
Definition updateDoc (updateData : jsobject) : list (string * option json) :=
  [("vehicleName", updateData !! "vehicleName");
   ("owner", updateData !! "owner");
   ("category", updateData !! "category");
   ("pricePerDay", updateData !! "pricePerDay");
   ("location", updateData !! "location");
   ("availability", updateData !! "availability");
   ("description", updateData !! "description");
   ("coverImage", updateData !! "coverImage")].

Definition put_vehicles_id (id : string) (body : jsobject) (s : server)
  : response * server :=
  if negb (ObjectId_isValid id)
  then (Response 400 (failure_body "Invalid vehicle id"), s)
  else
    match bind (new_ObjectId id) (fun o =>
            await s (Ok (updateOne (by_id o) (updateDoc body)
                           (vehiclesCollection s)))) with
    | Ok (matchedCount, modifiedCount, docs) =>
        if matchedCount =? 0
        then (Response 404 (failure_body "Vehicle not found"),
              set_vehicles docs (nextId s) s)
        else
          (Response 200 (JsonObject
             [("success", VJson (JBool true));
              ("message", VJson (JString "Vehicle updated successfully"));
              ("modifiedCount", VJson (JNumber modifiedCount))]),
           set_vehicles docs (nextId s) s)
    | Throw e =>
        (Response 500 (failure_body "Failed to update vehicle"),
         console_error "Error in PUT /vehicles/:id:" e s)
    end.

Definition delete_vehicles_id (id : string) (s : server) : response * server :=
  if negb (ObjectId_isValid id)
  then (Response 400 (failure_body "Invalid vehicle id"), s)
  else
    match bind (new_ObjectId id) (fun o =>
            await s (Ok (deleteOne (by_id o) (vehiclesCollection s)))) with
    | Ok (deletedCount, docs) =>
        if deletedCount =? 0
        then (Response 404 (failure_body "Vehicle not found"),
              set_vehicles docs (nextId s) s)
        else
          (Response 200 (JsonObject
             [("success", VJson (JBool true));
              ("message", VJson (JString "Vehicle deleted successfully"))]),
           set_vehicles docs (nextId s) s)
    | Throw e =>
        (Response 500 (failure_body "Failed to delete vehicle"),
         console_error "Error in DELETE /vehicles/:id:" e s)
    end.

Definition get_my_bookings (email : option string) (s : server)
  : response * server :=
  if missing email
  then (Response 400 (failure_body "Email query parameter is required"), s)
  else
    let query := by_userEmail (default "" email) in
    match await s (Ok (find_sorted query (bookingsCollection s))) with
    | Ok bookings => (Response 200 (JsonArray bookings), s)
    | Throw e =>
        (Response 500 (failure_body "Failed to fetch user bookings"),
         console_error "Error in GET /my-bookings:" e s)
    end.

Definition delete_bookings_id (id : string) (s : server) : response * server :=
  if negb (ObjectId_isValid id)
  then (Response 400 (failure_body "Invalid booking id"), s)
  else
    match bind (new_ObjectId id) (fun o =>
            await s (Ok (deleteOne (by_id o) (bookingsCollection s)))) with
    | Ok (deletedCount, docs) =>
        if deletedCount =? 0
        then (Response 404 (failure_body "Booking not found"),
              set_bookings docs (nextId s) s)
        else
          (Response 200 (JsonObject
             [("success", VJson (JBool true));
              ("message", VJson (JString "Booking deleted successfully"))]),
           set_bookings docs (nextId s) s)
    | Throw e =>
        (Response 500 (failure_body "Failed to delete booking"),
         console_error "Error in DELETE /bookings/:id:" e s)
    end.

(** The field-presence check of POST /bookings. *)
Definition booking_fields_missing (bookingData : jsobject) : bool :=
  negb (truthy (bookingData !! "vehicleId"))
  || negb (truthy (bookingData !! "userEmail"))
  || negb (truthy (bookingData !! "startDate"))
  || negb (truthy (bookingData !! "endDate")).

(** [insertOne(bookingData)] and the two ways it ends. *)
Definition insert_booking (bookingData : document) (s : server)
  : response * server :=
  match await s (insertOne bookingData (bookingsCollection s) (nextId s)) with
  | Ok (insertedId, docs, next) =>
      (Response 200 (JsonObject
         [("success", VJson (JBool true));
          ("message", VJson (JString "Booking created successfully"));
          ("bookingId", insertedId)]),
       set_bookings docs next s)
  | Throw e =>
      (Response 500 (failure_body "Failed to create booking"),
       console_error "Error in POST /bookings:" e s)
  end.

End Handlers.

(** *** server.js *)

Module ServerJs.
Import Handlers.

Definition get_vehicles (s : server) : response * server :=
  match await s (Ok (find_sorted (fun _ => true) (vehiclesCollection s))) with
  | Ok vehicles => (Response 200 (JsonArray vehicles), s)
  | Throw e =>
      (Response 500 (failure_body "Failed to fetch Vehicles"),
       console_error "Error in GET/Vehicles:" e s)
  end.

(** POST /bookings: the body is stored as it came, with [status]
    defaulted and [createdAt] stamped. *)
Definition post_bookings (now : Z) (body : jsobject) (s : server)
  : response * server :=
  if booking_fields_missing body
  then (Response 400 (failure_body
          "vehicleId, userEmail, startDate and endDate are required"), s)
  else
    let bookingData : document :=
      <["createdAt" := VDate (Some now)]>
        (<["status" := VJson (or_else (body !! "status") "pending")]>
           (VJson <$> body)) in
    insert_booking bookingData s.

Definition app (now : Z) (r : request) (s : server) : response * server :=
  match r with
  | GET_root => get_root s
  | GET_vehicles => get_vehicles s
  | POST_vehicles body => post_vehicles now body s
  | GET_vehicles_id id => get_vehicles_id id s
  | GET_my_vehicles email => get_my_vehicles email s
  | PUT_vehicles_id id body => put_vehicles_id id body s
  | DELETE_vehicles_id id => delete_vehicles_id id s
  | POST_bookings body => post_bookings now body s
  | GET_my_bookings email => get_my_bookings email s
  | DELETE_bookings_id id => delete_bookings_id id s
  end.

End ServerJs.

(** *** The second copy of the server (src/unnamed/part_000) *)

Module Part000.
Import Handlers.

Definition get_vehicles (s : server) : response * server :=
  match await s (Ok (find_sorted (fun _ => true) (vehiclesCollection s))) with
  | Ok vehicles => (Response 200 (JsonArray vehicles), s)
  | Throw e =>
      (Response 500 (failure_body "Failed to fetch vehicles"),
       console_error "Error in GET /vehicles:" e s)
  end.

Section Runtime.

Variable Date_parse : string -> option Z.

(** The inner [try]: both dates are converted, the first to throw ends
    the block. *)
Definition normalize_dates (bookingData : jsobject)
  : outcome (option Z * option Z) :=
  bind (new_Date Date_parse (bookingData !! "startDate")) (fun startDate =>
  bind (new_Date Date_parse (bookingData !! "endDate")) (fun endDate =>
  Ok (startDate, endDate))).

(** POST /bookings: as in server.js, with [startDate] and [endDate]
    replaced by [Date] objects before the insert. *)
Definition post_bookings (now : Z) (body : jsobject) (s : server)
  : response * server :=
  if booking_fields_missing body
  then (Response 400 (failure_body
          "vehicleId, userEmail, startDate and endDate are required"), s)
  else
    match normalize_dates body with
    | Throw _ =>
        (Response 400 (failure_body
           "Invalid date format for startDate or endDate"), s)
    | Ok (startDate, endDate) =>
        let bookingData : document :=
          <["createdAt" := VDate (Some now)]>
            (<["status" := VJson (or_else (body !! "status") "pending")]>
               (<["endDate" := VDate endDate]>
                  (<["startDate" := VDate startDate]> (VJson <$> body)))) in
        insert_booking bookingData s
    end.

Definition app (now : Z) (r : request) (s : server) : response * server :=
  match r with
  | GET_root => get_root s
  | GET_vehicles => get_vehicles s
  | POST_vehicles body => post_vehicles now body s
  | GET_vehicles_id id => get_vehicles_id id s
  | GET_my_vehicles email => get_my_vehicles email s
  | PUT_vehicles_id id body => put_vehicles_id id body s
  | DELETE_vehicles_id id => delete_vehicles_id id s
  | POST_bookings body => post_bookings now body s
  | GET_my_bookings email => get_my_bookings email s
  | DELETE_bookings_id id => delete_bookings_id id s
  end.

End Runtime.

End Part000.

(* ===================================================================== *)
(** ** The vocabulary of the theorems                                     *)
(* ===================================================================== *)

Import Handlers.

(** No stored document has the identifier [id]. *)
Definition unused (id : value) (docs : list document) : Prop :=
  Forall (fun d => d !! "_id" <> Some id) docs.

(** The request names no identifier of its own: [_id] is absent or null. *)
Definition no_own_id (doc : document) : Prop :=
  doc !! "_id" = None \/ doc !! "_id" = Some (VJson JNull).

(** The fields the update sets. *)
Definition allowlist : list string :=
  ["vehicleName"; "owner"; "category"; "pricePerDay"; "location";
   "availability"; "description"; "coverImage"].

(** The update leaves a field outside the allow-list as it was, in every
    document of the collection. *)
Definition same_outside_allowlist (d d' : document) : Prop :=
  forall k, ~ In k allowlist -> d' !! k = d !! k.

(** [a.createdAt >= b.createdAt]: when [b] is dated, [a] is dated too and
    not earlier. *)
Definition createdAt_ge (a b : document) : Prop :=
  forall tb, createdAt b = Some tb -> exists ta, createdAt a = Some ta /\ tb <= ta.

(** Any two documents of the listing, the first before the second, are in
    descending order of [createdAt]. *)
Definition descending (l : list document) : Prop :=
  forall i j a b, (i < j)%nat -> l !! i = Some a -> l !! j = Some b ->
    createdAt_ge a b.

(** Every generated identifier of the collection came off the counter. *)
Definition generated_below (next : N) (docs : list document) : Prop :=
  Forall (fun d => forall o, d !! "_id" = Some (VObjectId o) -> (o < next)%N) docs.

(** The document server.js hands to [insertOne]. *)
Definition bookingData_raw (now : Z) (body : jsobject) : document :=
  <["createdAt" := VDate (Some now)]>
    (<["status" := VJson (or_else (body !! "status") "pending")]>
       (VJson <$> body)).

(** [startDate] and [endDate] replaced by [Date] objects. *)
Definition with_dates (startDate endDate : option Z) (d : document) : document :=
  <["endDate" := VDate endDate]> (<["startDate" := VDate startDate]> d).

(** The messages of the [catch] blocks. *)
Definition generic_failures : list string :=
  ["Failed to fetch Vehicles"; "Failed to fetch vehicles";
   "Failed to add vehicle"; "Failed to fetch vehicle";
   "Failed to fetch user vehicles"; "Failed to update vehicle";
   "Failed to delete vehicle"; "Failed to create booking";
   "Failed to fetch user bookings"; "Failed to delete booking"].

(** What a handler [h] owes when it does not answer 200: the body is
    [{ success: false, error: msg }], and
    - with 400 nothing was asked of the database: the server is as it was
      and the answer is the same in every state of the server;
    - with 404 the database answered and the server is as it was;
    - with 500 a database error was caught: the message is one of the
      fixed ones and the error went to the console only.
    Besides, while the database fails, the answer does not depend on what
    the failure is. *)
Definition failure_contract (h : server -> response * server) : Prop :=
  forall s,
    (status (h s).1 = 200
     \/ exists msg,
          body (h s).1 = failure_body msg
          /\ ((status (h s).1 = 400 /\ (h s).2 = s
               /\ forall s2, (h s2).1 = (h s).1)
              \/ (status (h s).1 = 404 /\ (h s).2 = s /\ failing s = None)
              \/ (status (h s).1 = 500 /\ In msg generic_failures
                  /\ exists line cause,
                       (h s).2 = console_error line (MongoError cause) s)))
    /\ forall detail detail',
         (h (with_failing (Some detail) s)).1
         = (h (with_failing (Some detail') s)).1.

(** [createdAt] is a valid date. *)
Definition dated (d : document) : Prop :=
  exists t, d !! "createdAt" = Some (VDate (Some t)).

(** The identifiers of a collection, in stored order. *)
Definition ids (docs : list document) : list (option value) :=
  map (fun d => d !! "_id") docs.

(** A collection as the handlers leave it: every document is dated and
    has an identifier, no two share one, and the generated identifiers
    are below the counter. *)
Record wf_collection (next : N) (docs : list document) : Prop := {
  wf_dated : Forall dated docs;
  wf_identified : Forall (fun d => is_Some (d !! "_id")) docs;
  wf_unique : NoDup (ids docs);
  wf_generated : generated_below next docs
}.

Definition wf_server (s : server) : Prop :=
  wf_collection (nextId s) (vehiclesCollection s)
  /\ wf_collection (nextId s) (bookingsCollection s).

(** A server that has just started, on 2024-01-01 and 2024-01-02. *)
Definition fresh_server : server := Server [] [] 0 None [].
Definition jan1 : Z := 1704067200000.
Definition jan2 : Z := 1704153600000.

Definition corolla : jsobject :=
  {[ "vehicleName" := JString "Corolla"; "userEmail" := JString "a@x.com";
     "pricePerDay" := JNumber 40 ]}.

Definition civic : jsobject :=
  {[ "vehicleName" := JString "Civic"; "userEmail" := JString "b@x.com" ]}.

(** The identifier of the first generated ObjectId, as the client writes it. *)
Definition id0 : string := "000000000000000000000000".

(** One vehicle posted, then a second one a day later. *)
Definition one_vehicle : server := (post_vehicles jan1 corolla fresh_server).2.
Definition two_vehicles : server := (post_vehicles jan2 civic one_vehicle).2.

(** A booking of the first vehicle. *)
Definition trip : jsobject :=
  {[ "vehicleId" := JString id0; "userEmail" := JString "a@x.com";
     "startDate" := JString "2024-01-01"; "endDate" := JString "2024-01-05" ]}.

Definition trip_unparsable : jsobject :=
  <["startDate" := JString "not-a-date"]> trip.

(** The stored Corolla, and the update of a client who sends a new name
    and a new owner address and nothing else. *)
Definition corolla_stored : document :=
  <["_id" := VObjectId 0]>
    (<["createdAt" := VDate (Some jan1)]> (VJson <$> corolla)).

Definition rename : jsobject :=
  {[ "vehicleName" := JString "Camry"; "userEmail" := JString "b@x.com" ]}.

(** The server after the trip was booked, and the stored booking. *)
Definition one_booking : server := (ServerJs.post_bookings jan1 trip fresh_server).2.

Definition trip_stored : document :=
  <["_id" := VObjectId 0]> (bookingData_raw jan1 trip).

(** The routes whose handler calls a writing operation of the vehicles
    collection ([insertOne], [updateOne], [deleteOne]), and of the
    bookings collection. *)
Definition writes_vehicles (r : request) : bool :=
  match r with
  | POST_vehicles _ | PUT_vehicles_id _ _ | DELETE_vehicles_id _ => true
  | _ => false
  end.

Definition writes_bookings (r : request) : bool :=
  match r with
  | POST_bookings _ | DELETE_bookings_id _ => true
  | _ => false
  end.

(** What every handler [h] of a route [r] keeps: the database stays as
    available as it was, the ObjectId counter does not go back, the
    console only grows, by one line exactly when the answer is 500, and a
    collection the route has no writing call for is as it was. *)
Definition frame_contract (r : request) (h : server -> response * server) : Prop :=
  forall s,
    failing (h s).2 = failing s
    /\ (nextId s <= nextId (h s).2)%N
    /\ (status (h s).1 = 500 ->
        exists line e, console (h s).2 = (console s ++ [(line, e)])%list)
    /\ (status (h s).1 <> 500 -> console (h s).2 = console s)
    /\ (writes_vehicles r = false ->
        vehiclesCollection (h s).2 = vehiclesCollection s)
    /\ (writes_bookings r = false ->
        bookingsCollection (h s).2 = bookingsCollection s).

(** A JSON value [new Date] cannot convert: an object with an own
    [toString] key, or an array that holds such a value. *)
Fixpoint unconvertible (j : json) : bool :=
  match j with
  | JArray l => existsb unconvertible l
  | JObject kvs => has_key "toString" kvs
  | _ => false
  end.

Definition unconvertible_field (x : option json) : bool :=
  match x with
  | Some j => unconvertible j
  | None => false
  end.


(** A second booking by another user, with a status of its own, and a
    booking whose start date has no primitive. *)
Definition trip_confirmed : jsobject :=
  <["status" := JString "confirmed"]> (<["userEmail" := JString "b@x.com"]> trip).

Definition trip_unconvertible : jsobject :=
  <["startDate" := JArray [JNumber 2024; JObject [("toString", JNull)]]]> trip.

Definition two_bookings : server :=
  (ServerJs.post_bookings jan2 trip_confirmed one_booking).2.

(* ===================================================================== *)
(** ** Facts about the runtime and the driver                             *)
(* ===================================================================== *)

Section JsFacts.

Lemma truthy_string (s : string) : truthy (Some (JString s)) = true <-> s <> "".
Proof.
  simpl. rewrite negb_true_iff. split.
  - intros H ->. discriminate.
  - intros H. destruct (String.eqb_spec s ""); congruence.
Qed.

Lemma truthy_undefined : truthy None = false.
Proof. reflexivity. Qed.

Lemma truthy_present (x : option json) : truthy x = true -> is_Some x.
Proof. destruct x; [eauto | discriminate]. Qed.

(** [new Date(s)] does not throw on a string, parsable or not. *)
Lemma new_Date_string (Date_parse : string -> option Z) (s : string) :
  new_Date Date_parse (Some (JString s)) = Ok (Date_parse s).
Proof. reflexivity. Qed.

Lemma isValid_new_ObjectId (id : string) :
  ObjectId_isValid id = true <-> exists o, new_ObjectId id = Ok o.
Proof.
  unfold ObjectId_isValid. destruct (new_ObjectId id); split; eauto; try discriminate.
  intros [o Ho]. discriminate.
Qed.

End JsFacts.

Section DriverFacts.

Lemma unused_existsb (id : value) (docs : list document) :
  unused id docs ->
  existsb (fun d => bool_decide (d !! "_id" = Some id)) docs = false.
Proof.
  induction 1 as [ | d docs Hd _ IH]; simpl; [reflexivity | ].
  rewrite IH, orb_false_r. apply bool_decide_eq_false. exact Hd.
Qed.

Lemma insertOne_generated (doc : document) (docs : list document) (next : N) :
  no_own_id doc -> unused (VObjectId next) docs ->
  insertOne doc docs next
  = Ok (VObjectId next, (docs ++ [<["_id" := VObjectId next]> doc])%list,
        (next + 1)%N).
Proof.
  intros Hid Hfresh. unfold insertOne.
  destruct Hid as [-> | ->]; rewrite (unused_existsb _ _ Hfresh); reflexivity.
Qed.

Lemma await_up {A} (s : server) (op : outcome A) :
  failing s = None -> await s op = op.
Proof. unfold await. intros ->. reflexivity. Qed.

Lemma await_down {A} (s : server) (op : outcome A) (detail : string) :
  failing s = Some detail -> await s op = Throw (MongoError detail).
Proof. unfold await. intros ->. reflexivity. Qed.

End DriverFacts.

(* ===================================================================== *)
(** ** POST /vehicles                                                     *)
(* ===================================================================== *)

Section PostVehicles.

Lemma post_vehicles_rejects (now : Z) (body : jsobject) (s : server) :
  truthy (body !! "vehicleName") = false \/ truthy (body !! "userEmail") = false ->
  post_vehicles now body s
  = (Response 400 (failure_body "vehicleName and userEmail are required"), s).
Proof.
  intros H. unfold post_vehicles.
  destruct H as [-> | ->]; simpl; rewrite ?orb_true_r; reflexivity.
Qed.

Lemma vehicleData_no_own_id (now : Z) (body : jsobject) :
  no_own_id (VJson <$> body) ->
  no_own_id (<["createdAt" := VDate (Some now)]> (VJson <$> body)).
Proof.
  unfold no_own_id. rewrite lookup_insert_ne by discriminate. tauto.
Qed.

(** C4. POST /vehicles with [vehicleName] or [userEmail] missing or empty
    (falsy) answers 400 and leaves the server as it was, whatever its
    state; with both fields present and non-empty (truthy), no [_id] of
    the request's own and a database that answers, the handler stamps
    [createdAt] with the current time, appends the document to the
    vehicles collection under a generated ObjectId and answers success
    with that identifier. For a string, truthy is non-empty. *)
Theorem post_vehicles_validates_then_inserts
    (now : Z) (body : jsobject) (s : server) :
  (truthy (body !! "vehicleName") = false \/ truthy (body !! "userEmail") = false ->
   post_vehicles now body s
   = (Response 400 (failure_body "vehicleName and userEmail are required"), s))
  /\
  (truthy (body !! "vehicleName") = true -> truthy (body !! "userEmail") = true ->
   failing s = None -> no_own_id (VJson <$> body) ->
   unused (VObjectId (nextId s)) (vehiclesCollection s) ->
   post_vehicles now body s
   = (Response 200 (JsonObject
        [("success", VJson (JBool true));
         ("message", VJson (JString "Vehicle added successfully"));
         ("insertedId", VObjectId (nextId s))]),
      set_vehicles
        (vehiclesCollection s ++
           [<["_id" := VObjectId (nextId s)]>
              (<["createdAt" := VDate (Some now)]> (VJson <$> body))])%list
        (nextId s + 1)%N s))
  /\
  (truthy None = false /\ truthy (Some (JString "")) = false /\
   forall v : string, v <> "" -> truthy (Some (JString v)) = true).
Proof.
  split; [apply post_vehicles_rejects | split].
  - intros Hname Hmail Hup Hid Hfresh. unfold post_vehicles.
    rewrite Hname, Hmail. simpl.
    rewrite (await_up _ _ Hup).
    rewrite (insertOne_generated _ _ _ (vehicleData_no_own_id now body Hid) Hfresh).
    reflexivity.
  - repeat split. intros v Hv. apply truthy_string, Hv.
Qed.

End PostVehicles.

(* ===================================================================== *)
(** ** The routes that take an identifier                                 *)
(* ===================================================================== *)

Lemma by_id_false (o : N) (d : document) :
  d !! "_id" <> Some (VObjectId o) -> by_id o d = false.
Proof. intros H. apply bool_decide_eq_false. exact H. Qed.

Lemma by_id_true (o : N) (d : document) :
  d !! "_id" = Some (VObjectId o) -> by_id o d = true.
Proof. intros H. apply bool_decide_eq_true. exact H. Qed.

Lemma findOne_unused (o : N) (docs : list document) :
  unused (VObjectId o) docs -> findOne (by_id o) docs = None.
Proof.
  unfold findOne. induction 1 as [ | d docs Hd _ IH]; simpl; [reflexivity | ].
  rewrite (by_id_false _ _ Hd). exact IH.
Qed.

Lemma findOne_first (o : N) (pre post : list document) (d : document) :
  unused (VObjectId o) pre -> d !! "_id" = Some (VObjectId o) ->
  findOne (by_id o) (pre ++ d :: post) = Some d.
Proof.
  unfold findOne. intros Hpre Hd.
  induction Hpre as [ | e pre He _ IH]; simpl.
  - rewrite (by_id_true _ _ Hd). reflexivity.
  - rewrite (by_id_false _ _ He). exact IH.
Qed.

Lemma updateOne_unused (o : N) sets (docs : list document) :
  unused (VObjectId o) docs -> updateOne (by_id o) sets docs = (0, 0, docs).
Proof.
  induction 1 as [ | d docs Hd _ IH]; simpl; [reflexivity | ].
  rewrite (by_id_false _ _ Hd), IH. reflexivity.
Qed.

Lemma updateOne_first (o : N) sets (pre post : list document) (d : document) :
  unused (VObjectId o) pre -> d !! "_id" = Some (VObjectId o) ->
  updateOne (by_id o) sets (pre ++ d :: post)
  = (1, if bool_decide (apply_set sets d = d) then 0 else 1,
     pre ++ apply_set sets d :: post)%list.
Proof.
  intros Hpre Hd. induction Hpre as [ | e pre He _ IH]; simpl.
  - rewrite (by_id_true _ _ Hd). reflexivity.
  - rewrite (by_id_false _ _ He), IH. reflexivity.
Qed.

Lemma deleteOne_unused (o : N) (docs : list document) :
  unused (VObjectId o) docs -> deleteOne (by_id o) docs = (0, docs).
Proof.
  induction 1 as [ | d docs Hd _ IH]; simpl; [reflexivity | ].
  rewrite (by_id_false _ _ Hd), IH. reflexivity.
Qed.

Lemma deleteOne_first (o : N) (pre post : list document) (d : document) :
  unused (VObjectId o) pre -> d !! "_id" = Some (VObjectId o) ->
  deleteOne (by_id o) (pre ++ d :: post) = (1, (pre ++ post)%list).
Proof.
  intros Hpre Hd. induction Hpre as [ | e pre He _ IH]; simpl.
  - rewrite (by_id_true _ _ Hd). reflexivity.
  - rewrite (by_id_false _ _ He), IH. reflexivity.
Qed.

Lemma set_vehicles_same (s : server) :
  set_vehicles (vehiclesCollection s) (nextId s) s = s.
Proof. destruct s. reflexivity. Qed.

Lemma set_bookings_same (s : server) :
  set_bookings (bookingsCollection s) (nextId s) s = s.
Proof. destruct s. reflexivity. Qed.

Lemma invalid_id (id : string) :
  ObjectId_isValid id = false -> negb (ObjectId_isValid id) = true.
Proof. intros ->. reflexivity. Qed.

Lemma valid_id (id : string) (o : N) :
  new_ObjectId id = Ok o -> negb (ObjectId_isValid id) = false.
Proof. unfold ObjectId_isValid. intros ->. reflexivity. Qed.

(** What the four handlers do once the identifier is accepted and the
    database answers. *)
Ltac accepted Hid Hup :=
  rewrite (valid_id _ _ Hid), Hid; simpl; rewrite (await_up _ _ Hup).

(** C5. On GET, PUT and DELETE /vehicles/:id and DELETE /bookings/:id an
    identifier that [ObjectId.isValid] refuses is answered 400 with the
    server left as it was, in every state of the server (no call reaches
    the database: the answer is the same when the database is failing);
    an accepted identifier that no stored document has is answered 404;
    and GET /vehicles/:id answers the stored document that has it. *)
Theorem identifier_routes (id : string) (s : server) :
  (ObjectId_isValid id = false ->
     get_vehicles_id id s = (Response 400 (failure_body "Invalid vehicle id"), s)
     /\ (forall body,
          put_vehicles_id id body s
          = (Response 400 (failure_body "Invalid vehicle id"), s))
     /\ delete_vehicles_id id s
        = (Response 400 (failure_body "Invalid vehicle id"), s)
     /\ delete_bookings_id id s
        = (Response 400 (failure_body "Invalid booking id"), s))
  /\
  (forall o, new_ObjectId id = Ok o -> failing s = None ->
     (unused (VObjectId o) (vehiclesCollection s) ->
        get_vehicles_id id s = (Response 404 (failure_body "Vehicle not found"), s)
        /\ (forall body,
             put_vehicles_id id body s
             = (Response 404 (failure_body "Vehicle not found"), s))
        /\ delete_vehicles_id id s
           = (Response 404 (failure_body "Vehicle not found"), s))
     /\
     (unused (VObjectId o) (bookingsCollection s) ->
        delete_bookings_id id s
        = (Response 404 (failure_body "Booking not found"), s))
     /\
     (forall pre d post,
        vehiclesCollection s = (pre ++ d :: post)%list ->
        unused (VObjectId o) pre -> d !! "_id" = Some (VObjectId o) ->
        get_vehicles_id id s = (Response 200 (JsonDocument d), s))).
Proof.
  split.
  - intros Hbad.
    unfold get_vehicles_id, put_vehicles_id, delete_vehicles_id, delete_bookings_id.
    rewrite (invalid_id _ Hbad). repeat split.
  - intros o Hid Hup. split; [ | split].
    + intros Hnone. split; [ | split].
      * unfold get_vehicles_id. accepted Hid Hup.
        rewrite (findOne_unused _ _ Hnone). reflexivity.
      * intros body. unfold put_vehicles_id. accepted Hid Hup.
        rewrite (updateOne_unused _ _ _ Hnone). simpl.
        rewrite set_vehicles_same. reflexivity.
      * unfold delete_vehicles_id. accepted Hid Hup.
        rewrite (deleteOne_unused _ _ Hnone). simpl.
        rewrite set_vehicles_same. reflexivity.
    + intros Hnone. unfold delete_bookings_id. accepted Hid Hup.
      rewrite (deleteOne_unused _ _ Hnone). simpl.
      rewrite set_bookings_same. reflexivity.
    + intros pre d post Hdocs Hpre Hd. unfold get_vehicles_id. accepted Hid Hup.
      rewrite Hdocs, (findOne_first _ _ _ _ Hpre Hd). reflexivity.
Qed.

(* ===================================================================== *)
(** ** PUT /vehicles/:id                                                  *)
(* ===================================================================== *)

Lemma updateDoc_fields (body : jsobject) : map fst (updateDoc body) = allowlist.
Proof. reflexivity. Qed.

Lemma apply_set_other (sets : list (string * option json)) (d : document) (k : string) :
  ~ In k (map fst sets) -> apply_set sets d !! k = d !! k.
Proof.
  unfold apply_set. revert d.
  induction sets as [ | [k' v] sets IH]; intros d Hk; simpl in *; [reflexivity | ].
  rewrite IH by tauto. apply lookup_insert_ne. tauto.
Qed.

Lemma apply_set_listed (body : jsobject) (d : document) (k : string) :
  In k allowlist ->
  apply_set (updateDoc body) d !! k = Some (serialize (body !! k)).
Proof.
  intros Hk. unfold apply_set, updateDoc. simpl in *.
  repeat (destruct Hk as [<- | Hk];
          [ repeat (rewrite lookup_insert_ne by discriminate);
            apply lookup_insert_eq | ]).
  contradiction.
Qed.

(** C3. PUT /vehicles/:id with an accepted identifier and a database that
    answers: if no vehicle has the identifier the answer is 404 and
    nothing changes; otherwise the vehicle that has it is replaced by one
    in which each of the eight allow-listed fields holds the value of the
    request body, [null] when the body omits the field (whatever it held
    before), and every other field is as before; the answer is success
    with the modified-count, 1 if the document changed and 0 if not. *)
Theorem put_vehicles_overwrites_allowlist
    (id : string) (body : jsobject) (s : server) (o : N) :
  new_ObjectId id = Ok o -> failing s = None ->
  (unused (VObjectId o) (vehiclesCollection s) ->
   put_vehicles_id id body s
   = (Response 404 (failure_body "Vehicle not found"), s))
  /\
  (forall pre d post,
     vehiclesCollection s = (pre ++ d :: post)%list ->
     unused (VObjectId o) pre -> d !! "_id" = Some (VObjectId o) ->
     let d' := apply_set (updateDoc body) d in
     put_vehicles_id id body s
     = (Response 200 (JsonObject
          [("success", VJson (JBool true));
           ("message", VJson (JString "Vehicle updated successfully"));
           ("modifiedCount",
            VJson (JNumber (if bool_decide (d' = d) then 0 else 1)))]),
        set_vehicles (pre ++ d' :: post)%list (nextId s) s)
     /\ (forall k, In k allowlist ->
           d' !! k = Some (VJson (default JNull (body !! k))))
     /\ (forall k, In k allowlist -> body !! k = None ->
           d' !! k = Some (VJson JNull))
     /\ (forall k, ~ In k allowlist -> d' !! k = d !! k)).
Proof.
  intros Hid Hup. split.
  - intros Hnone. unfold put_vehicles_id. accepted Hid Hup.
    rewrite (updateOne_unused _ _ _ Hnone). simpl.
    rewrite set_vehicles_same. reflexivity.
  - intros pre d post Hdocs Hpre Hd d'. split; [ | split; [ | split]].
    + unfold put_vehicles_id. accepted Hid Hup.
      rewrite Hdocs, (updateOne_first _ _ _ _ _ Hpre Hd). reflexivity.
    + intros k Hk. apply apply_set_listed, Hk.
    + intros k Hk Hnone. unfold d'. rewrite (apply_set_listed _ _ _ Hk), Hnone.
      reflexivity.
    + intros k Hk. apply apply_set_other. rewrite updateDoc_fields. exact Hk.
Qed.

Lemma updateOne_frame (query : document -> bool) (body : jsobject)
    (docs : list document) :
  Forall2 same_outside_allowlist docs (updateOne query (updateDoc body) docs).2.
Proof.
  pose proof (updateDoc_fields body) as Hfields.
  set (sets := updateDoc body) in *. clearbody sets.
  induction docs as [ | d docs IH]; simpl; [constructor | ].
  destruct (query d).
  - simpl. constructor.
    + intros k Hk. apply apply_set_other. rewrite Hfields. exact Hk.
    + apply Forall2_same_length_lookup_2; [reflexivity | ].
      intros i x y Hx Hy k _. congruence.
  - destruct (updateOne query sets docs) as [[m n] ds]. simpl in *.
    constructor; [ | exact IH]. intros k _. reflexivity.
Qed.

Lemma same_outside_refl (docs : list document) :
  Forall2 same_outside_allowlist docs docs.
Proof. induction docs; constructor; [intros k _; reflexivity | assumption]. Qed.

(** C2 (amended). PUT /vehicles/:id never changes a field outside the
    allow-list: every vehicle keeps its identifier, its [createdAt], its
    [userEmail] and any further field, for every request and every state
    of the server; the bookings and the ObjectId generator are untouched.
    The eight allow-listed fields are the replaceable ones: the vehicle
    the identifier names takes for each of them the value the body gives. *)
Theorem put_vehicles_changes_only_allowlist
    (id : string) (body : jsobject) (s : server) :
  let s' := (put_vehicles_id id body s).2 in
  Forall2 (fun d d' =>
             d' !! "_id" = d !! "_id"
             /\ d' !! "createdAt" = d !! "createdAt"
             /\ d' !! "userEmail" = d !! "userEmail"
             /\ same_outside_allowlist d d')
          (vehiclesCollection s) (vehiclesCollection s')
  /\ bookingsCollection s' = bookingsCollection s
  /\ nextId s' = nextId s
  /\ (forall o pre d post,
        new_ObjectId id = Ok o -> failing s = None ->
        vehiclesCollection s = (pre ++ d :: post)%list ->
        unused (VObjectId o) pre -> d !! "_id" = Some (VObjectId o) ->
        exists d',
          vehiclesCollection s' = (pre ++ d' :: post)%list
          /\ forall k v, In k allowlist -> body !! k = Some v ->
               d' !! k = Some (VJson v)).
Proof.
  intros s'.
  assert (Hframe : Forall2 same_outside_allowlist
                     (vehiclesCollection s) (vehiclesCollection s')
                   /\ bookingsCollection s' = bookingsCollection s
                   /\ nextId s' = nextId s).
  { unfold s', put_vehicles_id.
    destruct (negb (ObjectId_isValid id));
      [simpl; auto using same_outside_refl | ].
    destruct (new_ObjectId id) as [o | e];
      [ | simpl; auto using same_outside_refl].
    simpl. unfold await. destruct (failing s);
      [simpl; auto using same_outside_refl | ].
    pose proof (updateOne_frame (by_id o) body (vehiclesCollection s)) as Hf.
    destruct (updateOne (by_id o) (updateDoc body) (vehiclesCollection s))
      as [[m n] ds].
    simpl in Hf. destruct (m =? 0); simpl; auto. }
  destruct Hframe as (Hframe & Hb & Hn).
  split; [ | split; [exact Hb | split; [exact Hn | ]]].
  - eapply Forall2_impl; [exact Hframe | ].
    intros d d' Hsame. repeat split; try exact Hsame;
      apply Hsame; simpl; intuition discriminate.
  - intros o pre d post Hid Hup Hdocs Hpre Hd.
    exists (apply_set (updateDoc body) d). split.
    + unfold s', put_vehicles_id. accepted Hid Hup.
      rewrite Hdocs, (updateOne_first _ _ _ _ _ Hpre Hd). reflexivity.
    + intros k v Hk Hv. rewrite (apply_set_listed _ _ _ Hk), Hv. reflexivity.
Qed.

(* ===================================================================== *)
(** ** The listings: GET /vehicles, /my-vehicles, /my-bookings            *)
(* ===================================================================== *)

Lemma createdAt_dated (d : document) (t : Z) :
  createdAt d = Some t <-> d !! "createdAt" = Some (VDate (Some t)).
Proof.
  unfold createdAt. destruct (d !! "createdAt") as [[j | [t' | ] | o] | ];
    split; congruence.
Qed.

Lemma desc_ge (a b : document) : desc a b = true <-> createdAt_ge a b.
Proof.
  unfold desc, createdAt_ge.
  destruct (createdAt a) as [ta | ], (createdAt b) as [tb | ]; split.
  - intros H t [= <-]. exists ta. split; [reflexivity | lia].
  - intros H. destruct (H tb eq_refl) as (t & [= <-] & Hle). lia.
  - intros _ t [=].
  - reflexivity.
  - discriminate.
  - intros H. destruct (H tb eq_refl) as (t & [=] & _).
  - intros _ t [=].
  - reflexivity.
Qed.

Lemma desc_total (a b : document) : desc a b = false -> desc b a = true.
Proof.
  unfold desc. destruct (createdAt a), (createdAt b); try congruence. lia.
Qed.

Lemma desc_trans (a b c : document) :
  desc a b = true -> desc b c = true -> desc a c = true.
Proof.
  unfold desc. destruct (createdAt a), (createdAt b), (createdAt c);
    try congruence. lia.
Qed.

Lemma insert_desc_perm (d : document) (l : list document) :
  Permutation (insert_desc d l) (d :: l).
Proof.
  induction l as [ | e l IH]; simpl; [reflexivity | ].
  destruct (desc d e); [reflexivity | ].
  rewrite IH. apply perm_swap.
Qed.

Lemma sort_desc_perm (l : list document) : Permutation (sort_desc l) l.
Proof.
  induction l as [ | d l IH]; simpl; [reflexivity | ].
  rewrite insert_desc_perm, IH. reflexivity.
Qed.

Lemma insert_desc_sorted (d : document) (l : list document) :
  StronglySorted (fun a b => desc a b = true) l ->
  StronglySorted (fun a b => desc a b = true) (insert_desc d l).
Proof.
  induction 1 as [ | e l Hl IH He]; simpl.
  - repeat constructor.
  - destruct (desc d e) eqn:Hde.
    + constructor; [constructor; assumption | ].
      constructor; [exact Hde | ].
      eapply Forall_impl; [exact He | ].
      intros c Hec. exact (desc_trans _ _ _ Hde Hec).
    + constructor; [exact IH | ].
      eapply Permutation_Forall;
        [apply Permutation_sym, insert_desc_perm | ].
      constructor; [apply desc_total, Hde | exact He].
Qed.

Lemma sort_desc_sorted (l : list document) :
  StronglySorted (fun a b => desc a b = true) (sort_desc l).
Proof.
  induction l as [ | d l IH]; simpl; [constructor | ].
  apply insert_desc_sorted, IH.
Qed.

Lemma StronglySorted_descending (l : list document) :
  StronglySorted (fun a b => desc a b = true) l -> descending l.
Proof.
  induction 1 as [ | e l Hl IH He]; intros i j a b Hij Hi Hj.
  - rewrite lookup_nil in Hi. discriminate.
  - destruct j as [ | j]; [lia | ]. simpl in Hj.
    destruct i as [ | i]; simpl in Hi.
    + injection Hi as ->. apply desc_ge.
      rewrite Forall_forall in He. apply He.
      eapply list_elem_of_lookup_2. exact Hj.
    + apply (IH i j); [lia | assumption | assumption].
Qed.

Lemma find_sorted_descending (query : document -> bool) (docs : list document) :
  descending (find_sorted query docs).
Proof. apply StronglySorted_descending, sort_desc_sorted. Qed.

Lemma find_sorted_perm (query : document -> bool) (docs : list document) :
  Permutation (find_sorted query docs) (List.filter query docs).
Proof. apply sort_desc_perm. Qed.

Lemma filter_all (docs : list document) :
  List.filter (fun _ => true) docs = docs.
Proof. induction docs; simpl; congruence. Qed.

Lemma by_userEmail_string (email u : string) (d : document) :
  d !! "userEmail" = Some (VJson (JString u)) ->
  by_userEmail email d = true <-> u = email.
Proof. unfold by_userEmail. intros ->. apply String.eqb_eq. Qed.

Lemma present_not_missing (email : string) :
  email <> "" -> missing (Some email) = false.
Proof. intros H. simpl. destruct (String.eqb_spec email ""); congruence. Qed.

(** C6. While the database answers, GET /vehicles (in both files) is
    answered with all the vehicles and GET /my-vehicles?email=E with the
    vehicles the filter on [userEmail] selects, for a vehicle whose
    [userEmail] is a string those with [userEmail] equal to E; both
    listings are in descending order of [createdAt], and an empty
    collection gives the empty array with status 200. *)
Theorem vehicle_listings (s : server) :
  failing s = None ->
  (exists l,
     ServerJs.get_vehicles s = (Response 200 (JsonArray l), s)
     /\ Part000.get_vehicles s = (Response 200 (JsonArray l), s)
     /\ Permutation l (vehiclesCollection s)
     /\ descending l
     /\ (vehiclesCollection s = [] -> l = []))
  /\
  (forall E, E <> "" ->
     exists l,
       get_my_vehicles (Some E) s = (Response 200 (JsonArray l), s)
       /\ Permutation l (List.filter (by_userEmail E) (vehiclesCollection s))
       /\ (forall d u, d !! "userEmail" = Some (VJson (JString u)) ->
             In d l <-> In d (vehiclesCollection s) /\ u = E)
       /\ descending l
       /\ (vehiclesCollection s = [] -> l = [])).
Proof.
  intros Hup. split.
  - exists (find_sorted (fun _ => true) (vehiclesCollection s)).
    unfold ServerJs.get_vehicles, Part000.get_vehicles.
    rewrite (await_up _ _ Hup).
    split; [reflexivity | split; [reflexivity | split; [ | split]]].
    + rewrite find_sorted_perm, filter_all. reflexivity.
    + apply find_sorted_descending.
    + intros ->. reflexivity.
  - intros E HE.
    exists (find_sorted (by_userEmail E) (vehiclesCollection s)).
    unfold get_my_vehicles. rewrite (present_not_missing _ HE). simpl.
    rewrite (await_up _ _ Hup).
    split; [reflexivity | split; [ | split; [ | split]]].
    + apply find_sorted_perm.
    + intros d u Hu.
      rewrite (Permutation_in' (eq_refl d) (find_sorted_perm _ _)).
      rewrite filter_In, (by_userEmail_string _ _ _ Hu). reflexivity.
    + apply find_sorted_descending.
    + intros ->. reflexivity.
Qed.

(* ===================================================================== *)
(** ** POST /bookings                                                     *)
(* ===================================================================== *)

Lemma generated_below_unused (next o : N) (docs : list document) :
  generated_below next docs -> (next <= o)%N -> unused (VObjectId o) docs.
Proof.
  intros Hgen Ho. eapply Forall_impl; [exact Hgen | ].
  intros d Hd Heq. specialize (Hd o Heq). lia.
Qed.

Lemma generated_below_insert (next : N) (docs : list document) (doc : document) :
  generated_below next docs ->
  generated_below (next + 1) (docs ++ [<["_id" := VObjectId next]> doc]).
Proof.
  intros Hgen. apply Forall_app. split.
  - eapply Forall_impl; [exact Hgen | ]. intros d Hd o Ho.
    specialize (Hd o Ho). lia.
  - constructor; [ | constructor]. intros o.
    rewrite lookup_insert_eq. intros [= <-]. lia.
Qed.

Lemma insert_booking_generated (bookingData : document) (s : server) :
  failing s = None -> no_own_id bookingData ->
  unused (VObjectId (nextId s)) (bookingsCollection s) ->
  insert_booking bookingData s
  = (Response 200 (JsonObject
       [("success", VJson (JBool true));
        ("message", VJson (JString "Booking created successfully"));
        ("bookingId", VObjectId (nextId s))]),
     set_bookings
       (bookingsCollection s ++ [<["_id" := VObjectId (nextId s)]> bookingData])%list
       (nextId s + 1)%N s).
Proof.
  intros Hup Hid Hfresh. unfold insert_booking.
  rewrite (await_up _ _ Hup), (insertOne_generated _ _ _ Hid Hfresh).
  reflexivity.
Qed.

Lemma bookingData_raw_no_own_id (now : Z) (body : jsobject) :
  no_own_id (VJson <$> body) -> no_own_id (bookingData_raw now body).
Proof.
  unfold no_own_id, bookingData_raw.
  rewrite !lookup_insert_ne by discriminate. tauto.
Qed.

Lemma with_dates_no_own_id (sd ed : option Z) (d : document) :
  no_own_id d -> no_own_id (with_dates sd ed d).
Proof.
  unfold no_own_id, with_dates.
  rewrite !lookup_insert_ne by discriminate. tauto.
Qed.

Lemma with_dates_id (sd ed : option Z) (d : document) :
  with_dates sd ed d !! "_id" = d !! "_id".
Proof. unfold with_dates. rewrite !lookup_insert_ne by discriminate. reflexivity. Qed.

Lemma with_dates_insert_id (sd ed : option Z) (id : value) (d : document) :
  <["_id" := id]> (with_dates sd ed d) = with_dates sd ed (<["_id" := id]> d).
Proof.
  unfold with_dates.
  rewrite (insert_insert_ne _ "_id" "endDate") by discriminate.
  rewrite (insert_insert_ne _ "_id" "startDate") by discriminate.
  reflexivity.
Qed.

Lemma ServerJs_post_bookings_accepted (now : Z) (body : jsobject) (s : server) :
  booking_fields_missing body = false ->
  ServerJs.post_bookings now body s = insert_booking (bookingData_raw now body) s.
Proof. unfold ServerJs.post_bookings. intros ->. reflexivity. Qed.

Section PostBookings.

Variable Date_parse : string -> option Z.

Lemma Part000_post_bookings_accepted (now : Z) (body : jsobject) (s : server)
    (sd ed : option Z) :
  booking_fields_missing body = false ->
  Part000.normalize_dates Date_parse body = Ok (sd, ed) ->
  Part000.post_bookings Date_parse now body s
  = insert_booking (with_dates sd ed (bookingData_raw now body)) s.
Proof.
  unfold Part000.post_bookings. intros -> ->. f_equal.
  unfold with_dates, bookingData_raw.
  rewrite (insert_insert_ne _ "startDate" "createdAt") by discriminate.
  rewrite (insert_insert_ne _ "endDate" "createdAt") by discriminate.
  rewrite (insert_insert_ne _ "startDate" "status") by discriminate.
  rewrite (insert_insert_ne _ "endDate" "status") by discriminate.
  reflexivity.
Qed.

Lemma Part000_post_bookings_thrown (now : Z) (body : jsobject) (s : server)
    (e : error) :
  booking_fields_missing body = false ->
  Part000.normalize_dates Date_parse body = Throw e ->
  Part000.post_bookings Date_parse now body s
  = (Response 400 (failure_body "Invalid date format for startDate or endDate"), s).
Proof. unfold Part000.post_bookings. intros -> ->. reflexivity. Qed.

(** Date strings are converted without a throw, whatever they hold. *)
Lemma normalize_dates_strings (body : jsobject) (a b : string) :
  body !! "startDate" = Some (JString a) -> body !! "endDate" = Some (JString b) ->
  Part000.normalize_dates Date_parse body = Ok (Date_parse a, Date_parse b).
Proof. unfold Part000.normalize_dates. intros -> ->. reflexivity. Qed.

(** C7. POST /bookings (second copy) with the four required fields
    present, no [status], dates that [new Date] converts, no [_id] of the
    request's own and a database that answers: the booking is appended to
    the collection with [status] "pending", [startDate] and [endDate] as
    [Date] objects, [createdAt] the current time, and the other fields of
    the body as they came; date strings always convert. In server.js the
    stored booking has the same [status] and [createdAt]. *)
Theorem post_bookings_defaults_and_normalizes
    (now : Z) (body : jsobject) (s : server) :
  booking_fields_missing body = false ->
  body !! "status" = None ->
  failing s = None ->
  no_own_id (VJson <$> body) ->
  unused (VObjectId (nextId s)) (bookingsCollection s) ->
  (forall sd ed,
     Part000.normalize_dates Date_parse body = Ok (sd, ed) ->
     exists doc,
       bookingsCollection (Part000.post_bookings Date_parse now body s).2
       = (bookingsCollection s ++ [doc])%list
       /\ status (Part000.post_bookings Date_parse now body s).1 = 200
       /\ doc !! "status" = Some (VJson (JString "pending"))
       /\ doc !! "startDate" = Some (VDate sd)
       /\ doc !! "endDate" = Some (VDate ed)
       /\ doc !! "createdAt" = Some (VDate (Some now))
       /\ doc !! "_id" = Some (VObjectId (nextId s))
       /\ (forall k, ~ In k ["_id"; "createdAt"; "status"; "startDate"; "endDate"] ->
             doc !! k = VJson <$> body !! k))
  /\
  (forall a b, body !! "startDate" = Some (JString a) ->
               body !! "endDate" = Some (JString b) ->
               Part000.normalize_dates Date_parse body
               = Ok (Date_parse a, Date_parse b))
  /\
  (exists doc,
     bookingsCollection (ServerJs.post_bookings now body s).2
     = (bookingsCollection s ++ [doc])%list
     /\ doc !! "status" = Some (VJson (JString "pending"))
     /\ doc !! "createdAt" = Some (VDate (Some now))).
Proof.
  intros Hfields Hstatus Hup Hid Hfresh.
  pose proof (bookingData_raw_no_own_id now body Hid) as Hraw.
  split; [ | split].
  - intros sd ed Hdates.
    rewrite (Part000_post_bookings_accepted _ _ _ _ _ Hfields Hdates).
    rewrite (insert_booking_generated _ _ Hup (with_dates_no_own_id _ _ _ Hraw) Hfresh).
    eexists. split; [reflexivity | ]. split; [reflexivity | ].
    unfold with_dates, bookingData_raw. rewrite Hstatus. simpl.
    repeat split;
      try (repeat (rewrite lookup_insert_ne by discriminate);
           apply lookup_insert_eq).
    intros k Hk. simpl in Hk.
    rewrite !lookup_insert_ne by tauto. apply lookup_fmap.
  - intros a b Ha Hb. exact (normalize_dates_strings _ _ _ Ha Hb).
  - rewrite (ServerJs_post_bookings_accepted _ _ _ Hfields).
    rewrite (insert_booking_generated _ _ Hup Hraw Hfresh).
    eexists. split; [reflexivity | ].
    unfold bookingData_raw. rewrite Hstatus. simpl.
    split; repeat (rewrite lookup_insert_ne by discriminate);
      apply lookup_insert_eq.
Qed.

End PostBookings.

Section TwoCopies.

Variable Date_parse : string -> option Z.

Lemma failing_set_bookings (docs : list document) (next : N) (s : server) :
  failing (set_bookings docs next s) = failing s.
Proof. reflexivity. Qed.

(** C9. Two POST /bookings requests in a row that both pass the
    field-presence check (in the second copy: whose dates [new Date]
    converts), bring no [_id] of their own and meet a database that
    answers are both answered 200, and both bookings are in the
    collection afterwards, each with the [vehicleId] of its request:
    nothing is asked of the vehicles collection, of the bookings already
    stored, or of the dates. This holds in both files, whatever the two
    vehicleIds and date ranges are, equal and overlapping ones included. *)
Theorem overlapping_bookings_coexist
    (now1 now2 : Z) (body1 body2 : jsobject) (s : server) :
  booking_fields_missing body1 = false ->
  booking_fields_missing body2 = false ->
  no_own_id (VJson <$> body1) -> no_own_id (VJson <$> body2) ->
  failing s = None ->
  generated_below (nextId s) (bookingsCollection s) ->
  (let r1 := ServerJs.post_bookings now1 body1 s in
   let r2 := ServerJs.post_bookings now2 body2 r1.2 in
   status r1.1 = 200 /\ status r2.1 = 200
   /\ vehiclesCollection r2.2 = vehiclesCollection s
   /\ exists b1 b2,
        bookingsCollection r2.2 = (bookingsCollection s ++ [b1; b2])%list
        /\ b1 !! "vehicleId" = VJson <$> body1 !! "vehicleId"
        /\ b2 !! "vehicleId" = VJson <$> body2 !! "vehicleId"
        /\ b1 !! "startDate" = VJson <$> body1 !! "startDate"
        /\ b1 !! "endDate" = VJson <$> body1 !! "endDate"
        /\ b2 !! "startDate" = VJson <$> body2 !! "startDate"
        /\ b2 !! "endDate" = VJson <$> body2 !! "endDate")
  /\
  (forall sd1 ed1 sd2 ed2,
     Part000.normalize_dates Date_parse body1 = Ok (sd1, ed1) ->
     Part000.normalize_dates Date_parse body2 = Ok (sd2, ed2) ->
     let r1 := Part000.post_bookings Date_parse now1 body1 s in
     let r2 := Part000.post_bookings Date_parse now2 body2 r1.2 in
     status r1.1 = 200 /\ status r2.1 = 200
     /\ vehiclesCollection r2.2 = vehiclesCollection s
     /\ exists b1 b2,
          bookingsCollection r2.2 = (bookingsCollection s ++ [b1; b2])%list
          /\ b1 !! "vehicleId" = VJson <$> body1 !! "vehicleId"
          /\ b2 !! "vehicleId" = VJson <$> body2 !! "vehicleId"
          /\ b1 !! "startDate" = Some (VDate sd1)
          /\ b1 !! "endDate" = Some (VDate ed1)
          /\ b2 !! "startDate" = Some (VDate sd2)
          /\ b2 !! "endDate" = Some (VDate ed2)).
Proof.
  intros Hf1 Hf2 Hid1 Hid2 Hup Hgen.
  pose proof (bookingData_raw_no_own_id now1 body1 Hid1) as Hraw1.
  pose proof (bookingData_raw_no_own_id now2 body2 Hid2) as Hraw2.
  assert (Hfresh1 : unused (VObjectId (nextId s)) (bookingsCollection s))
    by (apply (generated_below_unused _ _ _ Hgen); lia).
  assert (Hfresh2 : forall doc,
            unused (VObjectId (nextId s + 1))
              (bookingsCollection s ++ [<["_id" := VObjectId (nextId s)]> doc])).
  { intros doc.
    apply (generated_below_unused _ _ _ (generated_below_insert _ _ doc Hgen)).
    lia. }
  split.
  - intros r1 r2. unfold r2, r1.
    rewrite !ServerJs_post_bookings_accepted by assumption.
    rewrite (insert_booking_generated _ s Hup Hraw1 Hfresh1). simpl.
    rewrite insert_booking_generated;
      [ | exact Hup | exact Hraw2 | apply Hfresh2 ].
    simpl. split; [reflexivity | split; [reflexivity | split; [reflexivity | ]]].
    eexists _, _. split; [rewrite <- app_assoc; reflexivity | ].
    unfold bookingData_raw.
    repeat split; rewrite !lookup_insert_ne by discriminate; apply lookup_fmap.
  - intros sd1 ed1 sd2 ed2 Hd1 Hd2 r1 r2. unfold r2, r1.
    rewrite (Part000_post_bookings_accepted Date_parse now1 body1 _ sd1 ed1 Hf1 Hd1).
    rewrite (insert_booking_generated _ s Hup
               (with_dates_no_own_id _ _ _ Hraw1) Hfresh1). simpl.
    rewrite (Part000_post_bookings_accepted Date_parse now2 body2 _ sd2 ed2 Hf2 Hd2).
    rewrite insert_booking_generated;
      [ | exact Hup | apply with_dates_no_own_id, Hraw2 | apply Hfresh2 ].
    simpl. split; [reflexivity | split; [reflexivity | split; [reflexivity | ]]].
    eexists _, _. split; [rewrite <- app_assoc; reflexivity | ].
    unfold with_dates, bookingData_raw.
    repeat split;
      first [ rewrite !lookup_insert_ne by discriminate; apply lookup_fmap
            | repeat (rewrite lookup_insert_ne by discriminate);
              apply lookup_insert_eq ].
Qed.

(** C10 (amended). The two copies of POST /bookings answer a request that
    fails the field-presence check alike. On a request that passes it the
    second copy first converts [startDate] and [endDate] with [new Date]:
    if that throws it answers 400 and stores nothing; otherwise the two
    copies give the same answer, and where server.js stores the booking
    with the two dates as they came in the body, the second copy stores
    the same booking with the two dates as [Date] objects. *)
Theorem post_bookings_copies_differ_in_dates
    (now : Z) (body : jsobject) (s : server) :
  (booking_fields_missing body = true ->
   Part000.post_bookings Date_parse now body s = ServerJs.post_bookings now body s)
  /\
  (booking_fields_missing body = false ->
   match Part000.normalize_dates Date_parse body with
   | Throw _ =>
       Part000.post_bookings Date_parse now body s
       = (Response 400
            (failure_body "Invalid date format for startDate or endDate"), s)
   | Ok (sd, ed) =>
       let server := ServerJs.post_bookings now body s in
       let second := Part000.post_bookings Date_parse now body s in
       second.1 = server.1
       /\ (status server.1 = 200 ->
           exists doc,
             bookingsCollection server.2 = (bookingsCollection s ++ [doc])%list
             /\ bookingsCollection second.2
                = (bookingsCollection s ++ [with_dates sd ed doc])%list
             /\ doc !! "startDate" = VJson <$> body !! "startDate"
             /\ doc !! "endDate" = VJson <$> body !! "endDate"
             /\ vehiclesCollection second.2 = vehiclesCollection server.2
             /\ nextId second.2 = nextId server.2
             /\ console second.2 = console server.2)
       /\ (status server.1 <> 200 -> second.2 = server.2)
   end).
Proof.
  split.
  - unfold Part000.post_bookings, ServerJs.post_bookings. intros ->. reflexivity.
  - intros Hfields.
    destruct (Part000.normalize_dates Date_parse body) as [[sd ed] | e] eqn:Hdates.
    + intros server second. unfold server, second.
      rewrite (Part000_post_bookings_accepted _ _ _ _ _ _ Hfields Hdates).
      rewrite (ServerJs_post_bookings_accepted _ _ _ Hfields).
      set (raw := bookingData_raw now body).
      assert (Hraw : raw !! "startDate" = VJson <$> body !! "startDate"
                     /\ raw !! "endDate" = VJson <$> body !! "endDate").
      { unfold raw, bookingData_raw.
        rewrite !lookup_insert_ne by discriminate. rewrite !lookup_fmap. tauto. }
      clearbody raw.
      unfold insert_booking, await.
      destruct (failing s);
        [simpl; split; [reflexivity | split; [discriminate | reflexivity]] | ].
      unfold insertOne. rewrite with_dates_id.
      destruct (match raw !! "_id" with
                | Some (VJson JNull) | None => (VObjectId (nextId s), (nextId s + 1)%N)
                | Some v => (v, nextId s)
                end) as [id next].
      destruct (existsb _ (bookingsCollection s)); simpl;
        [split; [reflexivity | split; [discriminate | reflexivity]] | ].
      split; [reflexivity | split; [ | intros H; contradiction H; reflexivity]].
      intros _. exists (<["_id" := id]> raw).
      rewrite with_dates_insert_id, !lookup_insert_ne by discriminate.
      tauto.
    + apply (Part000_post_bookings_thrown _ _ _ _ _ Hfields Hdates).
Qed.

(** C1 (what the code does). A date string that does not parse is not
    rejected: [new Date] gives an invalid date without throwing, the
    booking is stored with it and the answer is success. *)
Theorem post_bookings_stores_unparsable_date
    (now : Z) (body : jsobject) (s : server) (a b : string) :
  booking_fields_missing body = false ->
  body !! "startDate" = Some (JString a) ->
  body !! "endDate" = Some (JString b) ->
  Date_parse a = None ->
  failing s = None ->
  no_own_id (VJson <$> body) ->
  unused (VObjectId (nextId s)) (bookingsCollection s) ->
  exists doc,
    Part000.post_bookings Date_parse now body s
    = (Response 200 (JsonObject
         [("success", VJson (JBool true));
          ("message", VJson (JString "Booking created successfully"));
          ("bookingId", VObjectId (nextId s))]),
       set_bookings (bookingsCollection s ++ [doc])%list (nextId s + 1)%N s)
    /\ doc !! "startDate" = Some (VDate None).
Proof.
  intros Hfields Ha Hb Hnan Hup Hid Hfresh.
  rewrite (Part000_post_bookings_accepted _ _ _ _ _ _ Hfields
             (normalize_dates_strings _ _ _ _ Ha Hb)).
  rewrite insert_booking_generated;
    [ | exact Hup
      | apply with_dates_no_own_id, bookingData_raw_no_own_id, Hid
      | exact Hfresh ].
  eexists. split; [reflexivity | ].
  unfold with_dates. rewrite Hnan.
  repeat (rewrite lookup_insert_ne by discriminate). apply lookup_insert_eq.
Qed.

End TwoCopies.

(* ===================================================================== *)
(** ** Failure responses                                                  *)
(* ===================================================================== *)

Lemma updateOne_unmatched query sets (docs : list document) :
  (updateOne query sets docs).1.1 = 0 -> (updateOne query sets docs).2 = docs.
Proof.
  induction docs as [ | d docs IH]; simpl; [reflexivity | ].
  destruct (query d); simpl; [discriminate | ].
  destruct (updateOne query sets docs) as [[m n] ds]. simpl in *.
  intros H. rewrite (IH H). reflexivity.
Qed.

Lemma deleteOne_unmatched query (docs : list document) :
  (deleteOne query docs).1 = 0 -> (deleteOne query docs).2 = docs.
Proof.
  induction docs as [ | d docs IH]; simpl; [reflexivity | ].
  destruct (query d); simpl; [discriminate | ].
  destruct (deleteOne query docs) as [n ds]. simpl in *.
  intros H. rewrite (IH H). reflexivity.
Qed.

Lemma insertOne_throws doc (docs : list document) next e :
  insertOne doc docs next = Throw e -> e = MongoError "E11000 duplicate key error".
Proof.
  unfold insertOne.
  destruct (match doc !! "_id" with
            | Some (VJson JNull) | None => (VObjectId next, (next + 1)%N)
            | Some v => (v, next)
            end) as [id next'].
  destruct (existsb _ docs); [ | discriminate]. intros [= <-]. reflexivity.
Qed.

(** The three ways out of the contract's disjunction. *)
Ltac answer_200 := left; reflexivity.
Ltac answer_400 :=
  right; eexists; split; [reflexivity | ];
  left; split; [reflexivity | split; [reflexivity | intros; reflexivity]].
Ltac answer_500 :=
  right; eexists; split; [reflexivity | ];
  right; right; split; [reflexivity | split; [simpl; tauto | ]];
  eexists _, _; reflexivity.

Lemma get_root_contract : failure_contract get_root.
Proof. intros s. split; [answer_200 | reflexivity]. Qed.

Lemma ServerJs_get_vehicles_contract : failure_contract ServerJs.get_vehicles.
Proof.
  intros s. unfold ServerJs.get_vehicles, await. split; [ | reflexivity].
  destruct (failing s); simpl; [answer_500 | answer_200].
Qed.

Lemma Part000_get_vehicles_contract : failure_contract Part000.get_vehicles.
Proof.
  intros s. unfold Part000.get_vehicles, await. split; [ | reflexivity].
  destruct (failing s); simpl; [answer_500 | answer_200].
Qed.

Lemma post_vehicles_contract now body : failure_contract (post_vehicles now body).
Proof.
  intros s. unfold post_vehicles, await.
  destruct (negb (truthy (body !! "vehicleName")) || negb (truthy (body !! "userEmail")));
    [split; [answer_400 | reflexivity] | ].
  split; [ | reflexivity].
  destruct (failing s); simpl; [answer_500 | ].
  destruct (insertOne _ _ _) as [[[id docs] next] | e] eqn:Hins; simpl;
    [answer_200 | ].
  apply insertOne_throws in Hins as ->. answer_500.
Qed.

Lemma my_listing_contract email (coll : server -> list document) msg line :
  In msg generic_failures ->
  failure_contract (fun s =>
    if missing email
    then (Response 400 (failure_body "Email query parameter is required"), s)
    else
      match await s (Ok (find_sorted (by_userEmail (default "" email)) (coll s))) with
      | Ok docs => (Response 200 (JsonArray docs), s)
      | Throw e => (Response 500 (failure_body msg), console_error line e s)
      end).
Proof.
  intros Hmsg s. unfold await.
  destruct (missing email); [split; [answer_400 | reflexivity] | ].
  split; [ | reflexivity].
  destruct (failing s); simpl; [ | answer_200].
  right; eexists; split; [reflexivity | ].
  right; right; split; [reflexivity | split; [exact Hmsg | ]].
  eexists _, _; reflexivity.
Qed.

Lemma get_my_vehicles_contract email : failure_contract (get_my_vehicles email).
Proof. apply my_listing_contract. simpl. tauto. Qed.

Lemma get_my_bookings_contract email : failure_contract (get_my_bookings email).
Proof. apply my_listing_contract. simpl. tauto. Qed.

Lemma get_vehicles_id_contract id : failure_contract (get_vehicles_id id).
Proof.
  intros s. unfold get_vehicles_id, ObjectId_isValid, await.
  destruct (new_ObjectId id) as [o | e]; simpl;
    [ | split; [answer_400 | reflexivity]].
  split; [ | reflexivity].
  destruct (failing s) eqn:Hup; simpl; [answer_500 | ].
  destruct (findOne _ _); [answer_200 | ].
  right; eexists; split; [reflexivity | ].
  right; left. repeat split.
Qed.

Lemma put_vehicles_id_contract id body : failure_contract (put_vehicles_id id body).
Proof.
  intros s. unfold put_vehicles_id, ObjectId_isValid, await.
  destruct (new_ObjectId id) as [o | e]; simpl;
    [ | split; [answer_400 | reflexivity]].
  split; [ | reflexivity].
  destruct (failing s) eqn:Hup; simpl; [answer_500 | ].
  pose proof (updateOne_unmatched (by_id o) (updateDoc body) (vehiclesCollection s))
    as Hsame.
  destruct (updateOne _ _ _) as [[m n] docs]. simpl in Hsame.
  destruct (m =? 0) eqn:Hm; [ | answer_200].
  apply Z.eqb_eq in Hm. rewrite (Hsame Hm), set_vehicles_same.
  right; eexists; split; [reflexivity | ].
  right; left. repeat split.
Qed.

Lemma delete_vehicles_id_contract id : failure_contract (delete_vehicles_id id).
Proof.
  intros s. unfold delete_vehicles_id, ObjectId_isValid, await.
  destruct (new_ObjectId id) as [o | e]; simpl;
    [ | split; [answer_400 | reflexivity]].
  split; [ | reflexivity].
  destruct (failing s) eqn:Hup; simpl; [answer_500 | ].
  pose proof (deleteOne_unmatched (by_id o) (vehiclesCollection s)) as Hsame.
  destruct (deleteOne _ _) as [n docs]. simpl in Hsame.
  destruct (n =? 0) eqn:Hn; [ | answer_200].
  apply Z.eqb_eq in Hn. rewrite (Hsame Hn), set_vehicles_same.
  right; eexists; split; [reflexivity | ].
  right; left. repeat split.
Qed.

Lemma delete_bookings_id_contract id : failure_contract (delete_bookings_id id).
Proof.
  intros s. unfold delete_bookings_id, ObjectId_isValid, await.
  destruct (new_ObjectId id) as [o | e]; simpl;
    [ | split; [answer_400 | reflexivity]].
  split; [ | reflexivity].
  destruct (failing s) eqn:Hup; simpl; [answer_500 | ].
  pose proof (deleteOne_unmatched (by_id o) (bookingsCollection s)) as Hsame.
  destruct (deleteOne _ _) as [n docs]. simpl in Hsame.
  destruct (n =? 0) eqn:Hn; [ | answer_200].
  apply Z.eqb_eq in Hn. rewrite (Hsame Hn), set_bookings_same.
  right; eexists; split; [reflexivity | ].
  right; left. repeat split.
Qed.

Lemma insert_booking_contract doc : failure_contract (insert_booking doc).
Proof.
  intros s. unfold insert_booking, await. split; [ | reflexivity].
  destruct (failing s); simpl; [answer_500 | ].
  destruct (insertOne _ _ _) as [[[id docs] next] | e] eqn:Hins; simpl;
    [answer_200 | ].
  apply insertOne_throws in Hins as ->. answer_500.
Qed.

Lemma ServerJs_post_bookings_contract now body :
  failure_contract (ServerJs.post_bookings now body).
Proof.
  unfold ServerJs.post_bookings.
  destruct (booking_fields_missing body);
    [intros s; split; [answer_400 | reflexivity] | ].
  apply insert_booking_contract.
Qed.

Lemma Part000_post_bookings_contract Date_parse now body :
  failure_contract (Part000.post_bookings Date_parse now body).
Proof.
  unfold Part000.post_bookings.
  destruct (booking_fields_missing body);
    [intros s; split; [answer_400 | reflexivity] | ].
  destruct (Part000.normalize_dates Date_parse body) as [[sd ed] | e];
    [ | intros s; split; [answer_400 | reflexivity]].
  apply insert_booking_contract.
Qed.

(** C8. In both files, every route, every request and every state of the
    server: an answer that is not 200 has the body
    [{ success: false, error: <string> }] and status 400, 404 or 500;
    400 stands for a validation failure (nothing was asked of the
    database and nothing changed), 404 for an identifier the answering
    database does not hold, 500 for a database error that was caught,
    whose message is one of the fixed ones while the error itself goes to
    the console; and the answer given while the database fails is the
    same whatever the failure is. *)
Theorem failures_are_structured
    (Date_parse : string -> option Z) (now : Z) (r : request) :
  failure_contract (ServerJs.app now r)
  /\ failure_contract (Part000.app Date_parse now r).
Proof.
  split; destruct r;
    first [ exact get_root_contract
          | exact ServerJs_get_vehicles_contract
          | exact Part000_get_vehicles_contract
          | exact (post_vehicles_contract _ _)
          | exact (get_vehicles_id_contract _)
          | exact (get_my_vehicles_contract _)
          | exact (put_vehicles_id_contract _ _)
          | exact (delete_vehicles_id_contract _)
          | exact (ServerJs_post_bookings_contract _ _)
          | exact (Part000_post_bookings_contract _ _ _)
          | exact (get_my_bookings_contract _)
          | exact (delete_bookings_id_contract _) ].
Qed.

(* ===================================================================== *)
(** ** What every reachable state of the server satisfies                 *)
(* ===================================================================== *)

Lemma generated_below_mono (next next' : N) (docs : list document) :
  (next <= next')%N -> generated_below next docs -> generated_below next' docs.
Proof.
  intros Hle Hg. eapply Forall_impl; [exact Hg | ].
  intros d Hd o Ho. specialize (Hd o Ho). lia.
Qed.

Lemma wf_collection_mono (next next' : N) (docs : list document) :
  (next <= next')%N -> wf_collection next docs -> wf_collection next' docs.
Proof.
  intros Hle [Hd Hi Hu Hg]. split; try assumption.
  exact (generated_below_mono _ _ _ Hle Hg).
Qed.

Lemma wf_collection_unused (next : N) (docs : list document) :
  wf_collection next docs -> unused (VObjectId next) docs.
Proof. intros H. apply (generated_below_unused next); [apply H | lia]. Qed.

Lemma existsb_unused (id : value) (docs : list document) :
  existsb (fun d => bool_decide (d !! "_id" = Some id)) docs = false ->
  ~ In (Some id) (ids docs).
Proof.
  induction docs as [ | d docs IH]; simpl; [tauto | ].
  rewrite orb_false_iff, bool_decide_eq_false. intros [Hd Hrest] [Heq | Hin].
  - exact (Hd Heq).
  - exact (IH Hrest Hin).
Qed.

(** An insert of a dated document none of whose fields is an ObjectId of
    its own keeps the collection well formed. *)
Lemma insertOne_wf (doc : document) (docs docs' : list document)
    (next next' : N) (id : value) :
  dated doc ->
  (forall o, doc !! "_id" <> Some (VObjectId o)) ->
  wf_collection next docs ->
  insertOne doc docs next = Ok (id, docs', next') ->
  wf_collection next' docs' /\ (next <= next')%N.
Proof.
  intros [t Ht] Hown [Hd Hi Hu Hg]. unfold insertOne.
  destruct (match doc !! "_id" with
            | Some (VJson JNull) | None => (VObjectId next, (next + 1)%N)
            | Some v => (v, next)
            end) as [id0 next0] eqn:Hid.
  destruct (existsb _ docs) eqn:Hex; [discriminate | ].
  intros [= <- <- <-].
  assert (Hnext : (next <= next0)%N
                  /\ forall o, id0 = VObjectId o -> (o < next0)%N).
  { destruct (doc !! "_id") as [[[ | | | | | ] | | o] | ] eqn:Hdoc;
      injection Hid as <- <-;
      try (split; [lia | intros o' [=]; subst; lia]); try (split; [lia | discriminate]).
    exfalso. exact (Hown o eq_refl). }
  destruct Hnext as [Hle Hlt]. split; [ | exact Hle]. split.
  - apply Forall_app. split; [exact Hd | ]. repeat constructor.
    exists t. rewrite lookup_insert_ne by discriminate. exact Ht.
  - apply Forall_app. split; [exact Hi | ]. repeat constructor.
    rewrite lookup_insert_eq. eauto.
  - unfold ids. rewrite map_app. simpl. rewrite lookup_insert_eq.
    apply NoDup_app. split; [exact Hu | split].
    + intros x Hx Hx'. apply list_elem_of_In in Hx, Hx'.
      destruct Hx' as [<- | []]. exact (existsb_unused _ _ Hex Hx).
    + apply NoDup_singleton.
  - apply Forall_app. split.
    + exact (generated_below_mono _ _ _ Hle Hg).
    + repeat constructor. intros o. rewrite lookup_insert_eq. intros [= ->].
      apply Hlt. reflexivity.
Qed.

Lemma updateOne_wf (next : N) query (body : jsobject) (docs : list document) :
  wf_collection next docs ->
  wf_collection next (updateOne query (updateDoc body) docs).2.
Proof.
  intros [Hd Hi Hu Hg].
  pose proof (updateOne_frame query body docs) as Hframe.
  set (docs' := (updateOne query (updateDoc body) docs).2) in *. clearbody docs'.
  assert (Hkeep : Forall2 (fun d d' => d' !! "_id" = d !! "_id"
                                       /\ d' !! "createdAt" = d !! "createdAt")
                    docs docs').
  { eapply Forall2_impl; [exact Hframe | ].
    intros d d' Hsame. split; apply Hsame; simpl; intuition discriminate. }
  clear Hframe. split.
  - clear Hi Hu Hg.
    induction Hkeep as [ | d d' docs docs' [_ Hc] _ IH]; [constructor | ].
    inversion Hd; subst. constructor; [ | apply IH; assumption].
    unfold dated in *. rewrite Hc. assumption.
  - clear Hd Hu Hg.
    induction Hkeep as [ | d d' docs docs' [Hid _] _ IH]; [constructor | ].
    inversion Hi; subst. constructor; [ | apply IH; assumption].
    rewrite Hid. assumption.
  - assert (Hids : ids docs' = ids docs).
    { clear Hd Hi Hu Hg.
      induction Hkeep as [ | d d' docs docs' [Hid _] _ IH]; [reflexivity | ].
      simpl. rewrite Hid, IH. reflexivity. }
    rewrite Hids. exact Hu.
  - clear Hd Hi Hu.
    induction Hkeep as [ | d d' docs docs' [Hid _] _ IH]; [constructor | ].
    inversion Hg; subst. constructor; [ | apply IH; assumption].
    rewrite Hid. assumption.
Qed.

Lemma deleteOne_wf (next : N) query (docs : list document) :
  wf_collection next docs -> wf_collection next (deleteOne query docs).2.
Proof.
  induction docs as [ | d docs IH]; simpl; [tauto | ].
  intros [Hd Hi Hu Hg].
  inversion Hd; inversion Hi; inversion Hg; subst.
  simpl in Hu. apply NoDup_cons in Hu as [Hnotin Hu].
  assert (Hrest : wf_collection next docs) by (split; assumption).
  destruct (query d); [exact Hrest | ].
  specialize (IH Hrest).
  assert (Hsub : forall x, x ∈ ids (deleteOne query docs).2 -> x ∈ ids docs).
  { clear. induction docs as [ | e docs IHd]; simpl; [tauto | ].
    destruct (query e); simpl.
    - intros x Hx. apply elem_of_cons. tauto.
    - destruct (deleteOne query docs) as [n ds]. simpl in *.
      intros x Hx. apply elem_of_cons in Hx as [-> | Hx];
        apply elem_of_cons; auto. }
  destruct (deleteOne query docs) as [n ds]. simpl in *.
  destruct IH as [Hd' Hi' Hu' Hg'].
  split; try (constructor; assumption).
  simpl. apply NoDup_cons. split; [ | exact Hu'].
  intros Hin. apply Hnotin, Hsub, Hin.
Qed.

Lemma json_fields_no_ObjectId (body : jsobject) (k : string) (o : N) :
  (VJson <$> body) !! k <> Some (VObjectId o).
Proof. rewrite lookup_fmap. destruct (body !! k); simpl; congruence. Qed.

Lemma insert_booking_wf (doc : document) (s : server) :
  dated doc -> (forall o, doc !! "_id" <> Some (VObjectId o)) ->
  wf_server s -> wf_server (insert_booking doc s).2.
Proof.
  intros Hdated Hown [Hv Hb]. unfold insert_booking, await.
  destruct (failing s); [split; assumption | ].
  destruct (insertOne _ _ _) as [[[id docs] next] | e] eqn:Hins;
    [ | split; assumption].
  destruct (insertOne_wf _ _ _ _ _ _ Hdated Hown Hb Hins) as [Hb' Hle].
  split; [exact (wf_collection_mono _ _ _ Hle Hv) | exact Hb'].
Qed.

(** The empty server is well formed, and every request leaves a well
    formed server well formed, in both files. *)
Theorem handlers_preserve_wf
    (Date_parse : string -> option Z) (now : Z) (r : request) (s : server) :
  (forall f, wf_server (Server [] [] 0 f []))
  /\ (wf_server s ->
      wf_server (ServerJs.app now r s).2
      /\ wf_server (Part000.app Date_parse now r s).2).
Proof.
  split.
  { intros f. split; split; simpl; constructor. }
  intros Hwf.
  assert (Hpost_vehicles : forall body, wf_server (post_vehicles now body s).2).
  { intros body. unfold post_vehicles, await.
    destruct (_ || _); [exact Hwf | ].
    destruct (failing s); [exact Hwf | ].
    destruct (insertOne _ _ _) as [[[id docs] next] | e] eqn:Hins; [ | exact Hwf].
    destruct Hwf as [Hv Hb].
    eapply insertOne_wf in Hins as [Hv' Hle]; [ | | | exact Hv].
    - split; [exact Hv' | exact (wf_collection_mono _ _ _ Hle Hb)].
    - exists now. apply lookup_insert_eq.
    - intros o. rewrite lookup_insert_ne by discriminate.
      apply json_fields_no_ObjectId. }
  assert (Hlisting : forall email (coll : server -> list document) msg line,
            wf_server
              (if missing email
               then (Response 400 (failure_body "Email query parameter is required"), s)
               else match await s (Ok (find_sorted (by_userEmail (default "" email))
                                         (coll s))) with
                    | Ok docs => (Response 200 (JsonArray docs), s)
                    | Throw e => (Response 500 (failure_body msg),
                                  console_error line e s)
                    end).2).
  { intros email coll msg line. unfold await.
    destruct (missing email), (failing s); exact Hwf. }
  assert (Hget : wf_server (ServerJs.get_vehicles s).2
                 /\ wf_server (Part000.get_vehicles s).2).
  { unfold ServerJs.get_vehicles, Part000.get_vehicles, await.
    destruct (failing s); split; exact Hwf. }
  assert (Hget_id : forall id, wf_server (get_vehicles_id id s).2).
  { intros id. unfold get_vehicles_id, await.
    destruct (negb _); [exact Hwf | ].
    destruct (new_ObjectId id); simpl; [ | exact Hwf].
    destruct (failing s); [exact Hwf | ]. destruct (findOne _ _); exact Hwf. }
  assert (Hput : forall id body, wf_server (put_vehicles_id id body s).2).
  { intros id body. unfold put_vehicles_id, await.
    destruct (negb _); [exact Hwf | ].
    destruct (new_ObjectId id) as [o | e]; simpl; [ | exact Hwf].
    destruct (failing s); [exact Hwf | ].
    pose proof (updateOne_wf (nextId s) (by_id o) body (vehiclesCollection s)
                  (proj1 Hwf)) as Hv'.
    destruct (updateOne _ _ _) as [[m n] docs]. simpl in Hv'.
    destruct (m =? 0); split; simpl; solve [exact Hv' | apply Hwf]. }
  assert (Hdel_v : forall id, wf_server (delete_vehicles_id id s).2).
  { intros id. unfold delete_vehicles_id, await.
    destruct (negb _); [exact Hwf | ].
    destruct (new_ObjectId id) as [o | e]; simpl; [ | exact Hwf].
    destruct (failing s); [exact Hwf | ].
    pose proof (deleteOne_wf (nextId s) (by_id o) (vehiclesCollection s)
                  (proj1 Hwf)) as Hv'.
    destruct (deleteOne _ _) as [n docs]. simpl in Hv'.
    destruct (n =? 0); split; simpl; solve [exact Hv' | apply Hwf]. }
  assert (Hdel_b : forall id, wf_server (delete_bookings_id id s).2).
  { intros id. unfold delete_bookings_id, await.
    destruct (negb _); [exact Hwf | ].
    destruct (new_ObjectId id) as [o | e]; simpl; [ | exact Hwf].
    destruct (failing s); [exact Hwf | ].
    pose proof (deleteOne_wf (nextId s) (by_id o) (bookingsCollection s)
                  (proj2 Hwf)) as Hb'.
    destruct (deleteOne _ _) as [n docs]. simpl in Hb'.
    destruct (n =? 0); split; simpl; solve [exact Hb' | apply Hwf]. }
  assert (Hraw : forall body,
            dated (bookingData_raw now body)
            /\ forall o, bookingData_raw now body !! "_id" <> Some (VObjectId o)).
  { intros body. unfold bookingData_raw. split.
    - exists now. apply lookup_insert_eq.
    - intros o. rewrite !lookup_insert_ne by discriminate.
      apply json_fields_no_ObjectId. }
  assert (Hpost_s : forall body, wf_server (ServerJs.post_bookings now body s).2).
  { intros body. unfold ServerJs.post_bookings.
    destruct (booking_fields_missing body); [exact Hwf | ].
    apply insert_booking_wf; [apply Hraw | apply Hraw | exact Hwf]. }
  assert (Hpost_p : forall body,
            wf_server (Part000.post_bookings Date_parse now body s).2).
  { intros body.
    destruct (booking_fields_missing body) eqn:Hfields.
    - unfold Part000.post_bookings. rewrite Hfields. exact Hwf.
    - destruct (Part000.normalize_dates Date_parse body) as [[sd ed] | e] eqn:Hdates.
      + rewrite (Part000_post_bookings_accepted _ _ _ _ _ _ Hfields Hdates).
        destruct (Hraw body) as [[t Ht] Hown].
        apply insert_booking_wf; [ | | exact Hwf].
        * exists t. unfold with_dates.
          rewrite !lookup_insert_ne by discriminate. exact Ht.
        * intros o. rewrite with_dates_id. apply Hown.
      + rewrite (Part000_post_bookings_thrown _ _ _ _ _ Hfields Hdates).
        exact Hwf. }
  destruct r; simpl; try (split; solve [exact Hwf | apply Hget | auto]).
  - split; apply Hlisting.
  - split; apply Hlisting.
Qed.

(* ===================================================================== *)
(** ** Round trips through the routes                                     *)
(* ===================================================================== *)

Lemma hex_digit_hex_char (d : N) : (d < 16)%N -> hex_digit (hex_char d) = Some d.
Proof.
  intros Hd.
  assert (Hcases : In d (map N.of_nat (seq 0 16))).
  { apply in_map_iff. exists (N.to_nat d). split; [lia | ].
    apply in_seq. lia. }
  simpl in Hcases.
  repeat (destruct Hcases as [<- | Hcases]; [reflexivity | ]).
  contradiction.
Qed.

Lemma hex_value_to_hex (k : nat) (o acc : N) (rest : string) :
  hex_value acc (to_hex k o rest)
  = hex_value (acc * 16 ^ N.of_nat k + o mod 16 ^ N.of_nat k)%N rest.
Proof.
  revert o acc rest. induction k as [ | k IH]; intros o acc rest.
  - simpl. f_equal. rewrite N.mod_1_r. lia.
  - cbn [to_hex]. rewrite IH. cbn [hex_value].
    rewrite hex_digit_hex_char by (apply N.mod_lt; lia).
    f_equal. rewrite Nat2N.inj_succ, N.pow_succ_r'.
    rewrite (N.Div0.mod_mul_r o 16 (16 ^ N.of_nat k)). lia.
Qed.

Lemma length_to_hex (k : nat) (o : N) (rest : string) :
  String.length (to_hex k o rest) = (k + String.length rest)%nat.
Proof.
  revert o rest. induction k as [ | k IH]; intros o rest; [reflexivity | ].
  cbn [to_hex]. rewrite IH. simpl. lia.
Qed.

(** The identifier a client reads off a response names the ObjectId it
    was printed from. *)
Lemma new_ObjectId_toHexString (o : N) :
  (o < 2 ^ 96)%N -> new_ObjectId (ObjectId_toHexString o) = Ok o.
Proof.
  intros Ho. unfold new_ObjectId, ObjectId_toHexString.
  rewrite length_to_hex. simpl String.length. simpl Nat.eqb.
  rewrite hex_value_to_hex.
  change (16 ^ N.of_nat 24)%N with (2 ^ 96)%N.
  rewrite N.mod_small by exact Ho. reflexivity.
Qed.

Lemma unused_app (id : value) (l1 l2 : list document) :
  unused id l1 -> unused id l2 -> unused id (l1 ++ l2).
Proof. intros H1 H2. apply Forall_app. split; assumption. Qed.

(** A vehicle that was created is read back under the identifier of the
    response: POST /vehicles answers with a generated ObjectId, and GET
    /vehicles/:id with that identifier in hex answers the document with
    [createdAt] set to the time of creation and every other field as the
    body gave it. *)
Theorem created_vehicle_is_read_back (now : Z) (body : jsobject) (s : server) :
  truthy (body !! "vehicleName") = true -> truthy (body !! "userEmail") = true ->
  failing s = None -> no_own_id (VJson <$> body) ->
  unused (VObjectId (nextId s)) (vehiclesCollection s) ->
  (nextId s < 2 ^ 96)%N ->
  let created := post_vehicles now body s in
  let id := ObjectId_toHexString (nextId s) in
  exists vehicle,
    created.1 = Response 200 (JsonObject
      [("success", VJson (JBool true));
       ("message", VJson (JString "Vehicle added successfully"));
       ("insertedId", VObjectId (nextId s))])
    /\ get_vehicles_id id created.2 = (Response 200 (JsonDocument vehicle), created.2)
    /\ vehicle !! "createdAt" = Some (VDate (Some now))
    /\ forall k, k <> "_id" -> k <> "createdAt" -> vehicle !! k = VJson <$> body !! k.
Proof.
  intros Hname Hmail Hup Hid Hfresh Hrange created id.
  pose proof (new_ObjectId_toHexString _ Hrange) as Hhex. fold id in Hhex.
  unfold created, post_vehicles. rewrite Hname, Hmail. simpl.
  rewrite (await_up _ _ Hup).
  rewrite (insertOne_generated _ _ _ (vehicleData_no_own_id now body Hid) Hfresh).
  eexists. split; [reflexivity | ]. simpl. split; [ | split].
  - unfold get_vehicles_id. rewrite (valid_id _ _ Hhex), Hhex. simpl.
    rewrite await_up by exact Hup. simpl.
    rewrite (findOne_first _ _ [] _ Hfresh) by apply lookup_insert_eq.
    reflexivity.
  - rewrite lookup_insert_ne by discriminate. apply lookup_insert_eq.
  - intros k Hk1 Hk2. rewrite !lookup_insert_ne by congruence. apply lookup_fmap.
Qed.

Lemma NoDup_ids_split (pre post : list document) (d : document) :
  NoDup (ids (pre ++ d :: post)) ->
  Forall (fun e => e !! "_id" <> d !! "_id") (pre ++ post).
Proof.
  unfold ids. rewrite map_app. simpl. intros Hnodup.
  apply NoDup_app in Hnodup as (_ & Hdisj & Hpost).
  apply NoDup_cons in Hpost as [Hnotin _].
  apply Forall_app. split; apply Forall_forall; intros e He Heq.
  - apply (Hdisj (e !! "_id")).
    + apply list_elem_of_fmap. exists e. split; [reflexivity | exact He].
    + rewrite Heq. apply elem_of_cons. left. reflexivity.
  - apply Hnotin. rewrite <- Heq.
    apply list_elem_of_fmap. exists e. split; [reflexivity | exact He].
Qed.

(** A booking that was deleted is gone from the listing of its user:
    DELETE /bookings/:id with the identifier of a stored booking answers
    200 and removes that booking and no other; a later GET /my-bookings
    lists, of the bookings of the user, exactly the remaining ones. *)
Theorem deleted_booking_is_not_listed
    (id : string) (o : N) (s : server) (pre post : list document) (d : document) :
  new_ObjectId id = Ok o -> failing s = None ->
  bookingsCollection s = (pre ++ d :: post)%list ->
  d !! "_id" = Some (VObjectId o) ->
  NoDup (ids (bookingsCollection s)) ->
  let deleted := delete_bookings_id id s in
  deleted
  = (Response 200 (JsonObject
       [("success", VJson (JBool true));
        ("message", VJson (JString "Booking deleted successfully"))]),
     set_bookings (pre ++ post)%list (nextId s) s)
  /\ forall email, email <> "" ->
       exists l,
         get_my_bookings (Some email) deleted.2
         = (Response 200 (JsonArray l), deleted.2)
         /\ ~ In d l
         /\ forall b, In b l <->
                      In b (pre ++ post) /\ by_userEmail email b = true.
Proof.
  intros Hid Hup Hdocs Hd Hnodup deleted.
  rewrite Hdocs in Hnodup. pose proof (NoDup_ids_split _ _ _ Hnodup) as Hothers.
  rewrite Hd in Hothers.
  assert (Hpre : unused (VObjectId o) pre).
  { apply Forall_app in Hothers as [Hpre _]. exact Hpre. }
  assert (Hdel : deleted
                 = (Response 200 (JsonObject
                      [("success", VJson (JBool true));
                       ("message", VJson (JString "Booking deleted successfully"))]),
                    set_bookings (pre ++ post)%list (nextId s) s)).
  { unfold deleted, delete_bookings_id. accepted Hid Hup.
    rewrite Hdocs, (deleteOne_first _ _ _ _ Hpre Hd). reflexivity. }
  split; [exact Hdel | ].
  intros email Hemail. rewrite Hdel. simpl.
  exists (find_sorted (by_userEmail email) (pre ++ post)).
  unfold get_my_bookings. rewrite (present_not_missing _ Hemail). simpl.
  rewrite await_up by exact Hup. split; [reflexivity | ].
  assert (Hin : forall b, In b (find_sorted (by_userEmail email) (pre ++ post)) <->
                          In b (pre ++ post) /\ by_userEmail email b = true).
  { intros b. rewrite (Permutation_in' (eq_refl b) (find_sorted_perm _ _)).
    apply filter_In. }
  split; [ | exact Hin].
  intros Hd_in. apply Hin in Hd_in as [Hd_in _].
  rewrite Forall_forall in Hothers.
  apply (Hothers d); [apply list_elem_of_In, Hd_in | exact Hd].
Qed.

(** An update is read back: after a PUT /vehicles/:id that matched, GET
    /vehicles/:id answers the vehicle with the eight allow-listed fields
    as the body of the PUT gave them ([null] for the omitted ones) and
    every other field as before. *)
Theorem updated_vehicle_is_read_back
    (id : string) (o : N) (body : jsobject) (s : server)
    (pre post : list document) (d : document) :
  new_ObjectId id = Ok o -> failing s = None ->
  vehiclesCollection s = (pre ++ d :: post)%list ->
  unused (VObjectId o) pre -> d !! "_id" = Some (VObjectId o) ->
  let updated := put_vehicles_id id body s in
  exists vehicle,
    status updated.1 = 200
    /\ get_vehicles_id id updated.2 = (Response 200 (JsonDocument vehicle), updated.2)
    /\ (forall k, In k allowlist ->
          vehicle !! k = Some (VJson (default JNull (body !! k))))
    /\ (forall k, ~ In k allowlist -> vehicle !! k = d !! k).
Proof.
  intros Hid Hup Hdocs Hpre Hd updated.
  exists (apply_set (updateDoc body) d).
  assert (Hput : updated
                 = (Response 200 (JsonObject
                      [("success", VJson (JBool true));
                       ("message", VJson (JString "Vehicle updated successfully"));
                       ("modifiedCount",
                        VJson (JNumber (if bool_decide
                                             (apply_set (updateDoc body) d = d)
                                        then 0 else 1)))]),
                    set_vehicles (pre ++ apply_set (updateDoc body) d :: post)%list
                      (nextId s) s)).
  { unfold updated, put_vehicles_id. accepted Hid Hup.
    rewrite Hdocs, (updateOne_first _ _ _ _ _ Hpre Hd). reflexivity. }
  assert (Hd' : apply_set (updateDoc body) d !! "_id" = Some (VObjectId o)).
  { rewrite apply_set_other; [exact Hd | ].
    rewrite updateDoc_fields. simpl. intuition discriminate. }
  rewrite Hput. split; [reflexivity | split; [ | split]].
  - unfold get_vehicles_id. rewrite (valid_id _ _ Hid), Hid.
    cbn [negb bind snd set_vehicles vehiclesCollection].
    rewrite await_up by exact Hup.
    rewrite (findOne_first _ _ _ _ Hpre Hd'). reflexivity.
  - intros k Hk. apply apply_set_listed, Hk.
  - intros k Hk. apply apply_set_other. rewrite updateDoc_fields. exact Hk.
Qed.

(* ===================================================================== *)
(** ** Further properties of the routes                                   *)
(* ===================================================================== *)

(** *** The listings of a user *)

Lemma missing_email_400 (email : option string) (s : server) :
  missing email = true ->
  get_my_vehicles email s
  = (Response 400 (failure_body "Email query parameter is required"), s)
  /\ get_my_bookings email s
     = (Response 400 (failure_body "Email query parameter is required"), s).
Proof. unfold get_my_vehicles, get_my_bookings. intros ->. split; reflexivity. Qed.

Lemma filter_none (query : document -> bool) (docs : list document) :
  (forall d, In d docs -> query d = false) -> List.filter query docs = [].
Proof.
  induction docs as [ | d docs IH]; intros Hnone; simpl; [reflexivity | ].
  rewrite (Hnone d) by (left; reflexivity).
  apply IH. intros e He. apply Hnone. right. exact He.
Qed.

(** GET /my-vehicles and GET /my-bookings without an email, or with an
    empty one, are answered 400 in every state of the server, a failing
    database included. While the database answers, GET /my-bookings with a
    non-empty email E is answered 200 with the bookings the filter on
    [userEmail] selects, for a booking whose [userEmail] is a string those
    of E and no other, in descending order of [createdAt]; a user without
    bookings gets the empty array, not a 404. *)
Theorem booking_listings (s : server) :
  (forall email, email = None \/ email = Some "" ->
     get_my_vehicles email s
     = (Response 400 (failure_body "Email query parameter is required"), s)
     /\ get_my_bookings email s
        = (Response 400 (failure_body "Email query parameter is required"), s))
  /\
  (failing s = None -> forall E, E <> "" ->
     exists l,
       get_my_bookings (Some E) s = (Response 200 (JsonArray l), s)
       /\ Permutation l (List.filter (by_userEmail E) (bookingsCollection s))
       /\ (forall d u, d !! "userEmail" = Some (VJson (JString u)) ->
             In d l <-> In d (bookingsCollection s) /\ u = E)
       /\ descending l
       /\ ((forall d, In d (bookingsCollection s) -> by_userEmail E d = false) ->
           l = [])).
Proof.
  split.
  - intros email [-> | ->]; apply missing_email_400; reflexivity.
  - intros Hup E HE.
    exists (find_sorted (by_userEmail E) (bookingsCollection s)).
    unfold get_my_bookings. rewrite (present_not_missing _ HE). simpl.
    rewrite (await_up _ _ Hup).
    split; [reflexivity | split; [ | split; [ | split]]].
    + apply find_sorted_perm.
    + intros d u Hu.
      rewrite (Permutation_in' (eq_refl d) (find_sorted_perm _ _)).
      rewrite filter_In, (by_userEmail_string _ _ _ Hu). reflexivity.
    + apply find_sorted_descending.
    + intros Hnone. unfold find_sorted. rewrite (filter_none _ _ Hnone).
      reflexivity.
Qed.

(** *** The listing of a user is the full listing, restricted *)





(** *** A new vehicle heads the listing *)




(** *** DELETE /vehicles/:id *)

Lemma unused_after_removal (o : N) (pre post : list document) (d : document) :
  d !! "_id" = Some (VObjectId o) -> NoDup (ids (pre ++ d :: post)) ->
  unused (VObjectId o) (pre ++ post).
Proof.
  intros Hd Hnodup. pose proof (NoDup_ids_split _ _ _ Hnodup) as H.
  rewrite Hd in H. exact H.
Qed.

Lemma absent_vehicle_404 (id : string) (o : N) (s : server) :
  new_ObjectId id = Ok o -> failing s = None ->
  unused (VObjectId o) (vehiclesCollection s) ->
  get_vehicles_id id s = (Response 404 (failure_body "Vehicle not found"), s)
  /\ delete_vehicles_id id s
     = (Response 404 (failure_body "Vehicle not found"), s).
Proof.
  intros Hid Hup Hgone. split.
  - unfold get_vehicles_id. accepted Hid Hup.
    rewrite (findOne_unused _ _ Hgone). reflexivity.
  - unfold delete_vehicles_id. accepted Hid Hup.
    rewrite (deleteOne_unused _ _ Hgone). simpl.
    rewrite set_vehicles_same. reflexivity.
Qed.

(** DELETE /vehicles/:id with the identifier of a stored vehicle
    (identifiers unique, database answering) answers 200, removes that
    vehicle and no other, and leaves the bookings collection as it was,
    bookings of that vehicle included; afterwards GET and DELETE with the
    same identifier are answered 404. *)
Theorem deleted_vehicle_is_gone
    (id : string) (o : N) (s : server) (pre post : list document) (d : document) :
  new_ObjectId id = Ok o -> failing s = None ->
  vehiclesCollection s = (pre ++ d :: post)%list ->
  d !! "_id" = Some (VObjectId o) ->
  NoDup (ids (vehiclesCollection s)) ->
  let deleted := delete_vehicles_id id s in
  deleted
  = (Response 200 (JsonObject
       [("success", VJson (JBool true));
        ("message", VJson (JString "Vehicle deleted successfully"))]),
     set_vehicles (pre ++ post)%list (nextId s) s)
  /\ bookingsCollection deleted.2 = bookingsCollection s
  /\ get_vehicles_id id deleted.2
     = (Response 404 (failure_body "Vehicle not found"), deleted.2)
  /\ delete_vehicles_id id deleted.2
     = (Response 404 (failure_body "Vehicle not found"), deleted.2).
Proof.
  intros Hid Hup Hdocs Hd Hnodup deleted. rewrite Hdocs in Hnodup.
  pose proof (unused_after_removal _ _ _ _ Hd Hnodup) as Hgone.
  assert (Hpre : unused (VObjectId o) pre).
  { apply Forall_app in Hgone as [Hpre _]. exact Hpre. }
  assert (Hdel : deleted
                 = (Response 200 (JsonObject
                      [("success", VJson (JBool true));
                       ("message", VJson (JString "Vehicle deleted successfully"))]),
                    set_vehicles (pre ++ post)%list (nextId s) s)).
  { unfold deleted, delete_vehicles_id. accepted Hid Hup.
    rewrite Hdocs, (deleteOne_first _ _ _ _ Hpre Hd). reflexivity. }
  rewrite Hdel. split; [reflexivity | split; [reflexivity | ]].
  cbn [snd]. apply (absent_vehicle_404 id o); [exact Hid | exact Hup | exact Hgone].
Qed.

(** *** What a request leaves alone *)

Ltac frame_ok :=
  simpl; repeat split; try reflexivity; try lia;
  try (intros H; discriminate H);
  try (intros H; exfalso; apply H; reflexivity);
  try (intros _; eexists _, _; reflexivity);
  try assumption.

Lemma insertOne_counter doc (docs docs' : list document) next next' id :
  insertOne doc docs next = Ok (id, docs', next') -> (next <= next')%N.
Proof.
  unfold insertOne.
  destruct (doc !! "_id") as [[[ | | | | | ] | | ] | ];
    destruct (existsb _ docs); intros [= <- <- <-]; lia.
Qed.

Lemma insert_booking_frame body doc :
  frame_contract (POST_bookings body) (insert_booking doc).
Proof.
  intros s. unfold insert_booking, await.
  destruct (failing s) eqn:Hup; [frame_ok | ].
  destruct (insertOne _ _ _) as [[[id docs] next] | e] eqn:Hins; [ | frame_ok].
  apply insertOne_counter in Hins. frame_ok.
Qed.

(** No route of either file changes the availability of the database or
    takes the ObjectId counter back; the console grows by one line exactly
    when the answer is 500; the routes of the vehicles never change the
    bookings collection, the routes of the bookings never change the
    vehicles collection, and the GET routes change neither. *)
Theorem routes_keep_their_frame
    (Date_parse : string -> option Z) (now : Z) (r : request) :
  frame_contract r (ServerJs.app now r)
  /\ frame_contract r (Part000.app Date_parse now r).
Proof.
  assert (Hshared : match r with
                    | GET_vehicles | POST_bookings _ => True
                    | _ => frame_contract r (ServerJs.app now r)
                           /\ frame_contract r (Part000.app Date_parse now r)
                    end).
  { destruct r; try exact I; split; intros s; simpl.
    - frame_ok.
    - frame_ok.
    - unfold post_vehicles, await. destruct (_ || _); [frame_ok | ].
      destruct (failing s) eqn:Hup; [frame_ok | ].
      destruct (insertOne _ _ _) as [[[i docs] next] | e] eqn:Hins; [ | frame_ok].
      apply insertOne_counter in Hins. frame_ok.
    - unfold post_vehicles, await. destruct (_ || _); [frame_ok | ].
      destruct (failing s) eqn:Hup; [frame_ok | ].
      destruct (insertOne _ _ _) as [[[i docs] next] | e] eqn:Hins; [ | frame_ok].
      apply insertOne_counter in Hins. frame_ok.
    - unfold get_vehicles_id, await. destruct (negb _); [frame_ok | ].
      destruct (new_ObjectId id); simpl; [ | frame_ok].
      destruct (failing s) eqn:Hup; [frame_ok | ]. destruct (findOne _ _); frame_ok.
    - unfold get_vehicles_id, await. destruct (negb _); [frame_ok | ].
      destruct (new_ObjectId id); simpl; [ | frame_ok].
      destruct (failing s) eqn:Hup; [frame_ok | ]. destruct (findOne _ _); frame_ok.
    - unfold get_my_vehicles, await. destruct (missing email); [frame_ok | ].
      destruct (failing s) eqn:Hup; frame_ok.
    - unfold get_my_vehicles, await. destruct (missing email); [frame_ok | ].
      destruct (failing s) eqn:Hup; frame_ok.
    - unfold put_vehicles_id, await. destruct (negb _); [frame_ok | ].
      destruct (new_ObjectId id); simpl; [ | frame_ok].
      destruct (failing s) eqn:Hup; [frame_ok | ].
      destruct (updateOne _ _ _) as [[m n] docs]. destruct (m =? 0); frame_ok.
    - unfold put_vehicles_id, await. destruct (negb _); [frame_ok | ].
      destruct (new_ObjectId id); simpl; [ | frame_ok].
      destruct (failing s) eqn:Hup; [frame_ok | ].
      destruct (updateOne _ _ _) as [[m n] docs]. destruct (m =? 0); frame_ok.
    - unfold delete_vehicles_id, await. destruct (negb _); [frame_ok | ].
      destruct (new_ObjectId id); simpl; [ | frame_ok].
      destruct (failing s) eqn:Hup; [frame_ok | ].
      destruct (deleteOne _ _) as [n docs]. destruct (n =? 0); frame_ok.
    - unfold delete_vehicles_id, await. destruct (negb _); [frame_ok | ].
      destruct (new_ObjectId id); simpl; [ | frame_ok].
      destruct (failing s) eqn:Hup; [frame_ok | ].
      destruct (deleteOne _ _) as [n docs]. destruct (n =? 0); frame_ok.
    - unfold get_my_bookings, await. destruct (missing email); [frame_ok | ].
      destruct (failing s) eqn:Hup; frame_ok.
    - unfold get_my_bookings, await. destruct (missing email); [frame_ok | ].
      destruct (failing s) eqn:Hup; frame_ok.
    - unfold delete_bookings_id, await. destruct (negb _); [frame_ok | ].
      destruct (new_ObjectId id); simpl; [ | frame_ok].
      destruct (failing s) eqn:Hup; [frame_ok | ].
      destruct (deleteOne _ _) as [n docs]. destruct (n =? 0); frame_ok.
    - unfold delete_bookings_id, await. destruct (negb _); [frame_ok | ].
      destruct (new_ObjectId id); simpl; [ | frame_ok].
      destruct (failing s) eqn:Hup; [frame_ok | ].
      destruct (deleteOne _ _) as [n docs]. destruct (n =? 0); frame_ok. }
  destruct r as [ | | | | | | | bookingData | | ]; try exact Hshared.
  - split; intros s; simpl;
      unfold ServerJs.get_vehicles, Part000.get_vehicles, await;
      destruct (failing s) eqn:Hup; frame_ok.
  - split; intros s; simpl.
    + unfold ServerJs.post_bookings.
      destruct (booking_fields_missing bookingData); [frame_ok | ].
      apply (insert_booking_frame bookingData).
    + unfold Part000.post_bookings.
      destruct (booking_fields_missing bookingData); [frame_ok | ].
      destruct (Part000.normalize_dates Date_parse bookingData) as [[sd ed] | e];
        [ | frame_ok].
      apply (insert_booking_frame bookingData).
Qed.

(** *** When the date error of POST /bookings is given *)

Lemma ToString_unconvertible (j : json) :
  match ToString j with
  | Ok _ => unconvertible j = false
  | Throw _ => unconvertible j = true
  end.
Proof.
  revert j. fix IH 1. intros [ | b | n | s | l | kvs]; try reflexivity.
  - induction l as [ | x rest IHrest]; [reflexivity | ].
    change (ToString (JArray (x :: rest)))
      with (bind (match x with JNull => Ok "" | _ => ToString x end) (fun s =>
            match rest with
            | [] => Ok s
            | _ :: _ => bind (ToString (JArray rest)) (fun r => Ok (s ++ "," ++ r))
            end)).
    change (unconvertible (JArray (x :: rest)))
      with (unconvertible x || unconvertible (JArray rest)).
    pose proof (IH x) as Hx.
    assert (Helem : match (match x with JNull => Ok "" | _ => ToString x end) with
                    | Ok _ => unconvertible x = false
                    | Throw _ => unconvertible x = true
                    end) by (destruct x; exact Hx).
    destruct (match x with JNull => Ok "" | _ => ToString x end) as [s | e];
      rewrite Helem; cbn [bind orb]; [ | reflexivity].
    destruct rest as [ | y rest]; [reflexivity | ].
    destruct (ToString (JArray (y :: rest))); exact IHrest.
  - simpl. destruct (has_key "toString" kvs); reflexivity.
Qed.

Lemma new_Date_unconvertible (Date_parse : string -> option Z) (x : option json) :
  match new_Date Date_parse x with
  | Ok _ => unconvertible_field x = false
  | Throw _ => unconvertible_field x = true
  end.
Proof.
  destruct x as [[ | b | n | s | l | kvs] | ]; try reflexivity.
  - pose proof (ToString_unconvertible (JArray l)) as H.
    unfold new_Date. destruct (ToString (JArray l)); exact H.
  - pose proof (ToString_unconvertible (JObject kvs)) as H.
    unfold new_Date. destruct (ToString (JObject kvs)); exact H.
Qed.

Lemma insert_booking_status (doc : document) (s : server) :
  status (insert_booking doc s).1 = 200 \/ status (insert_booking doc s).1 = 500.
Proof.
  unfold insert_booking, await. destruct (failing s); [right; reflexivity | ].
  destruct (insertOne _ _ _) as [[[id docs] next] | e];
    [left | right]; reflexivity.
Qed.

(** POST /bookings of the second copy, on a body that passes the
    field-presence check, gives the answer 400 "Invalid date format for
    startDate or endDate" exactly when [startDate] or [endDate] is an
    object with an own [toString] key or an array holding such a value;
    a string, a number or a boolean never gets that answer, whatever it
    holds. *)
Theorem date_error_exactly_when
    (Date_parse : string -> option Z) (now : Z) (body : jsobject) (s : server) :
  booking_fields_missing body = false ->
  Part000.post_bookings Date_parse now body s
  = (Response 400 (failure_body "Invalid date format for startDate or endDate"), s)
  <-> unconvertible_field (body !! "startDate")
      || unconvertible_field (body !! "endDate") = true.
Proof.
  intros Hfields.
  pose proof (new_Date_unconvertible Date_parse (body !! "startDate")) as Hstart.
  pose proof (new_Date_unconvertible Date_parse (body !! "endDate")) as Hend.
  unfold Part000.post_bookings, Part000.normalize_dates. rewrite Hfields.
  destruct (new_Date Date_parse (body !! "startDate")) as [sd | e];
    rewrite Hstart; simpl; [ | tauto].
  destruct (new_Date Date_parse (body !! "endDate")) as [ed | e];
    rewrite Hend; simpl; [ | tauto].
  split; [ | discriminate].
  intros Heq.
  match type of Heq with
  | insert_booking ?doc s = _ => pose proof (insert_booking_status doc s) as Hst
  end.
  rewrite Heq in Hst. simpl in Hst. destruct Hst; discriminate.
Qed.

(** *** The status of a booking *)

Lemma falsy_cases (x : option json) :
  truthy x = false <->
  x = None \/ x = Some JNull \/ x = Some (JBool false)
  \/ x = Some (JNumber 0) \/ x = Some (JString "").
Proof.
  split.
  - destruct x as [[ | [ | ] | n | v | l | kvs] | ]; simpl; try discriminate; auto.
    + rewrite negb_false_iff, Z.eqb_eq. intros ->. auto 6.
    + rewrite negb_false_iff, String.eqb_eq. intros ->. auto 6.
  - intros [-> | [-> | [-> | [-> | ->]]]]; reflexivity.
Qed.

(** POST /bookings on a body that passes the field-presence check and
    brings no [_id], with a database that answers: the stored booking has
    the [status] of the body when that is truthy and "pending" when it is
    absent, null, false, 0 or the empty string; its [createdAt] is the
    current time whatever the body holds under [createdAt]. This is so in
    server.js, and in the second copy when the dates convert. *)
Theorem booking_status_is_kept_or_defaulted
    (Date_parse : string -> option Z) (now : Z) (body : jsobject) (s : server) :
  booking_fields_missing body = false ->
  failing s = None ->
  no_own_id (VJson <$> body) ->
  unused (VObjectId (nextId s)) (bookingsCollection s) ->
  (forall stored,
     stored = (ServerJs.post_bookings now body s).2
     \/ (stored = (Part000.post_bookings Date_parse now body s).2
         /\ unconvertible_field (body !! "startDate")
            || unconvertible_field (body !! "endDate") = false) ->
     exists doc,
       bookingsCollection stored = (bookingsCollection s ++ [doc])%list
       /\ (truthy (body !! "status") = true ->
           doc !! "status" = VJson <$> body !! "status")
       /\ (body !! "status" = None \/ body !! "status" = Some JNull
           \/ body !! "status" = Some (JBool false)
           \/ body !! "status" = Some (JNumber 0)
           \/ body !! "status" = Some (JString "") ->
           doc !! "status" = Some (VJson (JString "pending")))
       /\ doc !! "createdAt" = Some (VDate (Some now))).
Proof.
  intros Hfields Hup Hid Hfresh stored Hstored.
  pose proof (bookingData_raw_no_own_id now body Hid) as Hraw.
  assert (Hstatus : forall d : document,
            d !! "status" = Some (VJson (or_else (body !! "status") "pending")) ->
            (truthy (body !! "status") = true ->
             d !! "status" = VJson <$> body !! "status")
            /\ (body !! "status" = None \/ body !! "status" = Some JNull
                \/ body !! "status" = Some (JBool false)
                \/ body !! "status" = Some (JNumber 0)
                \/ body !! "status" = Some (JString "") ->
                d !! "status" = Some (VJson (JString "pending")))).
  { intros d ->. unfold or_else. split.
    - intros Ht. rewrite Ht. destruct (body !! "status"); [reflexivity | discriminate].
    - intros Hfalsy. apply falsy_cases in Hfalsy. rewrite Hfalsy.
      destruct (body !! "status"); reflexivity. }
  destruct Hstored as [-> | [-> Hconv]].
  - rewrite (ServerJs_post_bookings_accepted _ _ _ Hfields).
    rewrite (insert_booking_generated _ _ Hup Hraw Hfresh).
    eexists. split; [reflexivity | ].
    match goal with
    | |- (_ -> ?d !! _ = _) /\ _ => destruct (Hstatus d) as [Hkept Hdefault]
    end.
    { unfold bookingData_raw.
      repeat (rewrite lookup_insert_ne by discriminate). apply lookup_insert_eq. }
    split; [exact Hkept | split; [exact Hdefault | ]].
    unfold bookingData_raw.
    repeat (rewrite lookup_insert_ne by discriminate). apply lookup_insert_eq.
  - apply orb_false_iff in Hconv as [Hs He].
    pose proof (new_Date_unconvertible Date_parse (body !! "startDate")) as Hstart.
    pose proof (new_Date_unconvertible Date_parse (body !! "endDate")) as Hend.
    destruct (new_Date Date_parse (body !! "startDate")) as [sd | e] eqn:Hsd;
      [ | congruence].
    destruct (new_Date Date_parse (body !! "endDate")) as [ed | e] eqn:Hed;
      [ | congruence].
    assert (Hdates : Part000.normalize_dates Date_parse body = Ok (sd, ed)).
    { unfold Part000.normalize_dates. rewrite Hsd, Hed. reflexivity. }
    rewrite (Part000_post_bookings_accepted _ _ _ _ _ _ Hfields Hdates).
    rewrite (insert_booking_generated _ _ Hup (with_dates_no_own_id _ _ _ Hraw) Hfresh).
    eexists. split; [reflexivity | ].
    match goal with
    | |- (_ -> ?d !! _ = _) /\ _ => destruct (Hstatus d) as [Hkept Hdefault]
    end.
    { unfold with_dates, bookingData_raw.
      repeat (rewrite lookup_insert_ne by discriminate). apply lookup_insert_eq. }
    split; [exact Hkept | split; [exact Hdefault | ]].
    unfold with_dates, bookingData_raw.
    repeat (rewrite lookup_insert_ne by discriminate). apply lookup_insert_eq.
Qed.

(** *** An update repeated *)

Lemma apply_set_idempotent (body : jsobject) (d : document) :
  apply_set (updateDoc body) (apply_set (updateDoc body) d)
  = apply_set (updateDoc body) d.
Proof.
  apply map_eq. intros k. destruct (in_dec string_dec k allowlist) as [Hk | Hk].
  - rewrite !(apply_set_listed _ _ _ Hk). reflexivity.
  - apply apply_set_other. rewrite updateDoc_fields. exact Hk.
Qed.

Lemma first_match (o : N) (docs : list document) :
  unused (VObjectId o) docs
  \/ exists pre d post,
       docs = (pre ++ d :: post)%list /\ unused (VObjectId o) pre
       /\ d !! "_id" = Some (VObjectId o).
Proof.
  induction docs as [ | d docs IH]; [left; constructor | ].
  destruct (decide (d !! "_id" = Some (VObjectId o))) as [Hd | Hd].
  - right. exists [], d, docs. repeat split; [constructor | exact Hd].
  - destruct IH as [Hnone | (pre & e & post & -> & Hpre & He)].
    + left. constructor; assumption.
    + right. exists (d :: pre), e, post. repeat split; [ | exact He].
      constructor; assumption.
Qed.

(** PUT /vehicles/:id sent a second time with the same identifier and
    body, the database answering, leaves the server as the first request
    left it and gets an answer of the same status; after a first request
    that matched, the answer to the second reports [modifiedCount] 0. *)
Theorem put_vehicles_twice (id : string) (body : jsobject) (s : server) :
  failing s = None ->
  let once := put_vehicles_id id body s in
  let twice := put_vehicles_id id body once.2 in
  twice.2 = once.2
  /\ status twice.1 = status once.1
  /\ (status once.1 = 200 ->
      twice.1 = Response 200 (JsonObject
                  [("success", VJson (JBool true));
                   ("message", VJson (JString "Vehicle updated successfully"));
                   ("modifiedCount", VJson (JNumber 0))])).
Proof.
  intros Hup once twice. unfold twice, once. clear once twice.
  destruct (new_ObjectId id) as [o | e] eqn:Hid.
  - destruct (first_match o (vehiclesCollection s))
      as [Hnone | (pre & d & post & Hdocs & Hpre & Hd)].
    + assert (H404 : put_vehicles_id id body s
                     = (Response 404 (failure_body "Vehicle not found"), s)).
      { unfold put_vehicles_id. accepted Hid Hup.
        rewrite (updateOne_unused _ _ _ Hnone). simpl.
        rewrite set_vehicles_same. reflexivity. }
      rewrite H404. cbn [snd fst]. rewrite H404.
      repeat split. discriminate.
    + set (d' := apply_set (updateDoc body) d).
      assert (Hd' : d' !! "_id" = Some (VObjectId o)).
      { unfold d'. rewrite apply_set_other; [exact Hd | ].
        rewrite updateDoc_fields. simpl. intuition discriminate. }
      assert (Hfirst : put_vehicles_id id body s
                = (Response 200 (JsonObject
                     [("success", VJson (JBool true));
                      ("message", VJson (JString "Vehicle updated successfully"));
                      ("modifiedCount",
                       VJson (JNumber (if bool_decide (d' = d) then 0 else 1)))]),
                   set_vehicles (pre ++ d' :: post)%list (nextId s) s)).
      { unfold put_vehicles_id. accepted Hid Hup.
        rewrite Hdocs, (updateOne_first _ _ _ _ _ Hpre Hd). reflexivity. }
      rewrite Hfirst. cbn [snd fst].
      assert (Hsecond : put_vehicles_id id body
                          (set_vehicles (pre ++ d' :: post)%list (nextId s) s)
                = (Response 200 (JsonObject
                     [("success", VJson (JBool true));
                      ("message", VJson (JString "Vehicle updated successfully"));
                      ("modifiedCount", VJson (JNumber 0))]),
                   set_vehicles (pre ++ d' :: post)%list (nextId s) s)).
      { unfold put_vehicles_id. rewrite (valid_id _ _ Hid), Hid.
        cbn [negb bind]. rewrite await_up by exact Hup.
        cbn [vehiclesCollection set_vehicles].
        rewrite (updateOne_first _ _ _ _ _ Hpre Hd').
        assert (Hidem : apply_set (updateDoc body) d' = d')
          by apply apply_set_idempotent.
        rewrite Hidem, bool_decide_eq_true_2 by reflexivity. reflexivity. }
      rewrite Hsecond. repeat split.
  - assert (H400 : forall s0, put_vehicles_id id body s0
                     = (Response 400 (failure_body "Invalid vehicle id"), s0)).
    { intros s0. unfold put_vehicles_id, ObjectId_isValid. rewrite Hid. reflexivity. }
    rewrite !H400. repeat split. discriminate.
Qed.

(** *** The field-presence check of POST /bookings *)

(** POST /bookings on a body in which [vehicleId], [userEmail],
    [startDate] or [endDate] is absent or falsy is answered 400 with the
    message naming the four fields, in both files and in every state of
    the server, and nothing is stored; in the second copy this check comes
    before the conversion of the dates, so such a body never gets the
    date error. *)
Theorem bookings_require_four_fields
    (Date_parse : string -> option Z) (now : Z) (body : jsobject) (s : server) :
  truthy (body !! "vehicleId") = false \/ truthy (body !! "userEmail") = false
  \/ truthy (body !! "startDate") = false \/ truthy (body !! "endDate") = false ->
  ServerJs.post_bookings now body s
  = (Response 400 (failure_body
       "vehicleId, userEmail, startDate and endDate are required"), s)
  /\ Part000.post_bookings Date_parse now body s
     = (Response 400 (failure_body
          "vehicleId, userEmail, startDate and endDate are required"), s).
Proof.
  intros Hfalsy.
  assert (Hmissing : booking_fields_missing body = true).
  { unfold booking_fields_missing.
    destruct Hfalsy as [-> | [-> | [-> | ->]]]; simpl;
      rewrite ?orb_true_r; reflexivity. }
  unfold ServerJs.post_bookings, Part000.post_bookings. rewrite Hmissing.
  split; reflexivity.
Qed.

(** *** Vehicles are not compared with each other *)

(** POST /vehicles sent twice with the same accepted body (no [_id] in
    it, database answering) is answered 200 both times, under two
    different generated identifiers, and the collection ends with two
    vehicles that differ in nothing but [_id] and [createdAt]. *)
Theorem vehicles_may_repeat (now1 now2 : Z) (body : jsobject) (s : server) :
  truthy (body !! "vehicleName") = true -> truthy (body !! "userEmail") = true ->
  failing s = None -> no_own_id (VJson <$> body) ->
  generated_below (nextId s) (vehiclesCollection s) ->
  let first := post_vehicles now1 body s in
  let second := post_vehicles now2 body first.2 in
  exists v1 v2,
    vehiclesCollection second.2 = (vehiclesCollection s ++ [v1; v2])%list
    /\ status first.1 = 200 /\ status second.1 = 200
    /\ v1 !! "_id" = Some (VObjectId (nextId s))
    /\ v2 !! "_id" = Some (VObjectId (nextId s + 1))
    /\ forall k, k <> "_id" -> k <> "createdAt" -> v1 !! k = v2 !! k.
Proof.
  intros Hname Hmail Hup Hid Hgen first second.
  assert (Hfresh1 : unused (VObjectId (nextId s)) (vehiclesCollection s))
    by (apply (generated_below_unused _ _ _ Hgen); lia).
  assert (Hpost : forall now s0,
            failing s0 = None ->
            unused (VObjectId (nextId s0)) (vehiclesCollection s0) ->
            post_vehicles now body s0
            = (Response 200 (JsonObject
                 [("success", VJson (JBool true));
                  ("message", VJson (JString "Vehicle added successfully"));
                  ("insertedId", VObjectId (nextId s0))]),
               set_vehicles
                 (vehiclesCollection s0 ++
                    [<["_id" := VObjectId (nextId s0)]>
                       (<["createdAt" := VDate (Some now)]> (VJson <$> body))])%list
                 (nextId s0 + 1)%N s0)).
  { intros now s0 Hup0 Hfresh0. unfold post_vehicles. rewrite Hname, Hmail. simpl.
    rewrite (await_up _ _ Hup0).
    rewrite (insertOne_generated _ _ _ (vehicleData_no_own_id now body Hid) Hfresh0).
    reflexivity. }
  unfold second, first. rewrite (Hpost now1 s Hup Hfresh1). cbn [snd fst].
  rewrite Hpost; [ | exact Hup | ].
  - cbn [snd fst status vehiclesCollection nextId set_vehicles].
    eexists _, _. split; [rewrite <- app_assoc; reflexivity | ].
    repeat split; try apply lookup_insert_eq.
    intros k Hk1 Hk2. rewrite !lookup_insert_ne by congruence. reflexivity.
  - cbn [vehiclesCollection nextId set_vehicles].
    apply (generated_below_unused (nextId s + 1));
      [apply generated_below_insert, Hgen | lia].
Qed.

(* ===================================================================== *)
(** ** The handlers on concrete requests                                  *)
(* ===================================================================== *)

Example new_Date_iso :
  new_Date Date_parse_iso (Some (JString "2024-01-01")) = Ok (Some jan1).
Proof. reflexivity. Qed.

Example new_Date_unparsable :
  new_Date Date_parse_iso (Some (JString "not-a-date")) = Ok None.
Proof. reflexivity. Qed.

(** The only way to the date error: a value that has no primitive. *)
Example new_Date_throws :
  new_Date Date_parse_iso (Some (JObject [("toString", JNull)]))
  = Throw (TypeError "Cannot convert object to primitive value").
Proof. reflexivity. Qed.

Example ObjectId_isValid_abc : ObjectId_isValid "abc" = false.
Proof. reflexivity. Qed.

Example ObjectId_isValid_id0 : new_ObjectId id0 = Ok 0%N.
Proof. reflexivity. Qed.

Example listing_newest_first :
  (fun d => d !! "vehicleName") <$>
    match (ServerJs.get_vehicles two_vehicles).1 with
    | Response _ (JsonArray l) => l
    | _ => []
    end
  = [Some (VJson (JString "Civic")); Some (VJson (JString "Corolla"))].
Proof. vm_compute. reflexivity. Qed.

(** A database that fails is answered 500 with the fixed message; what
    failed goes to the console. *)
Example failing_database_is_500 :
  ServerJs.app jan1 GET_vehicles (with_failing (Some "connection lost") one_vehicle)
  = (Response 500 (failure_body "Failed to fetch Vehicles"),
     console_error "Error in GET/Vehicles:" (MongoError "connection lost")
       (with_failing (Some "connection lost") one_vehicle)).
Proof. reflexivity. Qed.

(** A body that brings its own [_id] is stored under it; the same body
    again is a duplicate key, answered 500, and nothing is stored. *)
Example own_id_twice_is_500 :
  let body := <["_id" := JString "v1"]> corolla in
  let first := post_vehicles jan1 body fresh_server in
  let second := post_vehicles jan2 body first.2 in
  first.1 = Response 200 (JsonObject
              [("success", VJson (JBool true));
               ("message", VJson (JString "Vehicle added successfully"));
               ("insertedId", VJson (JString "v1"))])
  /\ second.1 = Response 500 (failure_body "Failed to add vehicle")
  /\ vehiclesCollection second.2 = vehiclesCollection first.2.
Proof. vm_compute. repeat split. Qed.

Lemma post_vehicles_witness :
  post_vehicles jan1 (delete "userEmail" corolla) fresh_server
  = (Response 400 (failure_body "vehicleName and userEmail are required"),
     fresh_server)
  /\ post_vehicles jan1 corolla fresh_server
     = (Response 200 (JsonObject
          [("success", VJson (JBool true));
           ("message", VJson (JString "Vehicle added successfully"));
           ("insertedId", VObjectId 0)]),
        set_vehicles
          [<["_id" := VObjectId 0]>
             (<["createdAt" := VDate (Some jan1)]> (VJson <$> corolla))]
          1%N fresh_server).
Proof.
  split.
  - apply (proj1 (post_vehicles_validates_then_inserts
                    jan1 (delete "userEmail" corolla) fresh_server)).
    right. reflexivity.
  - apply (proj1 (proj2 (post_vehicles_validates_then_inserts
                           jan1 corolla fresh_server))).
    + reflexivity.
    + reflexivity.
    + reflexivity.
    + left. reflexivity.
    + constructor.
Defined.

Lemma identifier_routes_witness :
  get_vehicles_id "abc" one_vehicle
  = (Response 400 (failure_body "Invalid vehicle id"), one_vehicle)
  /\ delete_bookings_id id0 one_vehicle
     = (Response 404 (failure_body "Booking not found"), one_vehicle)
  /\ get_vehicles_id id0 one_vehicle
     = (Response 200 (JsonDocument
          (<["_id" := VObjectId 0]>
             (<["createdAt" := VDate (Some jan1)]> (VJson <$> corolla)))),
        one_vehicle).
Proof.
  split; [ | split].
  - apply (proj1 (identifier_routes "abc" one_vehicle)). reflexivity.
  - apply (proj2 (identifier_routes id0 one_vehicle) 0%N);
      [reflexivity | reflexivity | constructor].
  - apply (proj2 (proj2 (proj2 (identifier_routes id0 one_vehicle)
                           0%N eq_refl eq_refl)) [] _ []);
      [reflexivity | constructor | reflexivity].
Defined.

Example one_vehicle_stored : vehiclesCollection one_vehicle = [corolla_stored].
Proof. reflexivity. Qed.

Lemma put_vehicles_witness :
  put_vehicles_id id0 rename fresh_server
  = (Response 404 (failure_body "Vehicle not found"), fresh_server)
  /\ (let d' := apply_set (updateDoc rename) corolla_stored in
      put_vehicles_id id0 rename one_vehicle
      = (Response 200 (JsonObject
           [("success", VJson (JBool true));
            ("message", VJson (JString "Vehicle updated successfully"));
            ("modifiedCount",
             VJson (JNumber (if bool_decide (d' = corolla_stored) then 0 else 1)))]),
         set_vehicles [d'] (nextId one_vehicle) one_vehicle)
      /\ d' !! "vehicleName" = Some (VJson (JString "Camry"))
      /\ d' !! "pricePerDay" = Some (VJson JNull)
      /\ d' !! "userEmail" = corolla_stored !! "userEmail").
Proof.
  split.
  - apply (proj1 (put_vehicles_overwrites_allowlist
                    id0 rename fresh_server 0%N eq_refl eq_refl)).
    constructor.
  - intros d'.
    destruct (proj2 (put_vehicles_overwrites_allowlist
                       id0 rename one_vehicle 0%N eq_refl eq_refl)
                [] corolla_stored [] eq_refl (Forall_nil_2 _) eq_refl)
      as (Hput & Hset & Hnull & Hkeep).
    split; [exact Hput | split; [ | split]].
    + apply (Hset "vehicleName"). simpl. tauto.
    + apply (Hnull "pricePerDay"); [simpl; tauto | reflexivity].
    + apply (Hkeep "userEmail"). simpl. intuition discriminate.
Defined.

(** C2, the claim as stated fails: the client of [rename] asks for a new
    [userEmail]; the update succeeds and the stored [userEmail] is the one
    the vehicle was created with. *)
Lemma put_vehicles_keeps_userEmail :
  rename !! "userEmail" = Some (JString "b@x.com")
  /\ status (put_vehicles_id id0 rename one_vehicle).1 = 200
  /\ (fun d => d !! "userEmail") <$>
       vehiclesCollection (put_vehicles_id id0 rename one_vehicle).2
     = [Some (VJson (JString "a@x.com"))].
Proof. vm_compute. repeat split. Qed.

Lemma put_vehicles_frame_witness :
  exists d',
    vehiclesCollection (put_vehicles_id id0 rename one_vehicle).2 = [d']
    /\ forall k v, In k allowlist -> rename !! k = Some v -> d' !! k = Some (VJson v).
Proof.
  apply (proj2 (proj2 (proj2 (put_vehicles_changes_only_allowlist
                                id0 rename one_vehicle)))
           0%N [] corolla_stored [] eq_refl eq_refl eq_refl (Forall_nil_2 _) eq_refl).
Defined.

Lemma vehicle_listings_witness :
  (exists l,
     ServerJs.get_vehicles two_vehicles = (Response 200 (JsonArray l), two_vehicles)
     /\ Part000.get_vehicles two_vehicles = (Response 200 (JsonArray l), two_vehicles)
     /\ Permutation l (vehiclesCollection two_vehicles)
     /\ descending l
     /\ (vehiclesCollection two_vehicles = [] -> l = []))
  /\
  (exists l,
     get_my_vehicles (Some "a@x.com") two_vehicles
     = (Response 200 (JsonArray l), two_vehicles)
     /\ Permutation l
          (List.filter (by_userEmail "a@x.com") (vehiclesCollection two_vehicles))
     /\ (forall d u, d !! "userEmail" = Some (VJson (JString u)) ->
           In d l <-> In d (vehiclesCollection two_vehicles) /\ u = "a@x.com")
     /\ descending l
     /\ (vehiclesCollection two_vehicles = [] -> l = [])).
Proof.
  split.
  - apply (proj1 (vehicle_listings two_vehicles eq_refl)).
  - apply (proj2 (vehicle_listings two_vehicles eq_refl) "a@x.com"). discriminate.
Defined.

Lemma post_bookings_witness :
  (exists doc,
     bookingsCollection (Part000.post_bookings Date_parse_iso jan2 trip one_vehicle).2
     = [doc]
     /\ status (Part000.post_bookings Date_parse_iso jan2 trip one_vehicle).1 = 200
     /\ doc !! "status" = Some (VJson (JString "pending"))
     /\ doc !! "startDate" = Some (VDate (Some 1704067200000))
     /\ doc !! "endDate" = Some (VDate (Some 1704412800000))
     /\ doc !! "createdAt" = Some (VDate (Some jan2))
     /\ doc !! "_id" = Some (VObjectId 1)
     /\ (forall k, ~ In k ["_id"; "createdAt"; "status"; "startDate"; "endDate"] ->
           doc !! k = VJson <$> trip !! k))
  /\
  (exists doc,
     bookingsCollection (ServerJs.post_bookings jan2 trip one_vehicle).2 = [doc]
     /\ doc !! "status" = Some (VJson (JString "pending"))
     /\ doc !! "createdAt" = Some (VDate (Some jan2))).
Proof.
  destruct (post_bookings_defaults_and_normalizes Date_parse_iso
              jan2 trip one_vehicle)
    as (Hsecond & _ & Hfirst);
    [reflexivity | reflexivity | reflexivity | left; reflexivity | constructor | ].
  split; [ | exact Hfirst].
  apply (Hsecond (Some 1704067200000) (Some 1704412800000)). reflexivity.
Defined.

Lemma overlapping_bookings_witness :
  (let r1 := ServerJs.post_bookings jan1 trip fresh_server in
   let r2 := ServerJs.post_bookings jan2 trip r1.2 in
   status r1.1 = 200 /\ status r2.1 = 200
   /\ exists b1 b2,
        bookingsCollection r2.2 = [b1; b2]
        /\ b1 !! "vehicleId" = Some (VJson (JString id0))
        /\ b2 !! "vehicleId" = Some (VJson (JString id0)))
  /\
  (let r1 := Part000.post_bookings Date_parse_iso jan1 trip fresh_server in
   let r2 := Part000.post_bookings Date_parse_iso jan2 trip r1.2 in
   status r1.1 = 200 /\ status r2.1 = 200
   /\ exists b1 b2,
        bookingsCollection r2.2 = [b1; b2]
        /\ b1 !! "vehicleId" = Some (VJson (JString id0))
        /\ b2 !! "vehicleId" = Some (VJson (JString id0))
        /\ b1 !! "startDate" = b2 !! "startDate"
        /\ b1 !! "endDate" = b2 !! "endDate").
Proof.
  destruct (overlapping_bookings_coexist Date_parse_iso jan1 jan2 trip trip
              fresh_server)
    as [Hfirst Hsecond];
    [reflexivity | reflexivity | left; reflexivity | left; reflexivity
     | reflexivity | constructor | ].
  split.
  - destruct Hfirst as (H1 & H2 & _ & b1 & b2 & Hb & Hv1 & Hv2 & _).
    split; [exact H1 | split; [exact H2 | ]]. exists b1, b2.
    split; [exact Hb | split; [exact Hv1 | exact Hv2]].
  - destruct (Hsecond (Some 1704067200000) (Some 1704412800000)
                (Some 1704067200000) (Some 1704412800000) eq_refl eq_refl)
      as (H1 & H2 & _ & b1 & b2 & Hb & Hv1 & Hv2 & Hs1 & He1 & Hs2 & He2).
    split; [exact H1 | split; [exact H2 | ]]. exists b1, b2.
    split; [exact Hb | split; [exact Hv1 | split; [exact Hv2 | ]]].
    split; congruence.
Defined.

(** C10, the claim as stated fails: for the same request server.js stores
    [startDate] as the string it came as, the second copy as a [Date]. *)
Lemma post_bookings_copies_disagree :
  booking_fields_missing trip = false
  /\ (fun d => d !! "startDate") <$>
       bookingsCollection (ServerJs.post_bookings jan1 trip fresh_server).2
     = [Some (VJson (JString "2024-01-01"))]
  /\ (fun d => d !! "startDate") <$>
       bookingsCollection
         (Part000.post_bookings Date_parse_iso jan1 trip fresh_server).2
     = [Some (VDate (Some 1704067200000))].
Proof. vm_compute. repeat split. Qed.

Lemma post_bookings_copies_witness :
  let server := ServerJs.post_bookings jan1 trip fresh_server in
  let second := Part000.post_bookings Date_parse_iso jan1 trip fresh_server in
  second.1 = server.1
  /\ exists doc,
       bookingsCollection server.2 = [doc]
       /\ bookingsCollection second.2
          = [with_dates (Some 1704067200000) (Some 1704412800000) doc]
       /\ doc !! "startDate" = Some (VJson (JString "2024-01-01")).
Proof.
  intros server second.
  pose proof (proj2 (post_bookings_copies_differ_in_dates Date_parse_iso
                       jan1 trip fresh_server) eq_refl) as H.
  change (Part000.normalize_dates Date_parse_iso trip)
    with (Ok (A := option Z * option Z)
             (Some 1704067200000, Some 1704412800000)) in H.
  destruct H as (Hsame & Hstored & _).
  split; [exact Hsame | ].
  destruct (Hstored eq_refl) as (doc & Hs & Hp & Hstart & _).
  exists doc. split; [exact Hs | split; [exact Hp | exact Hstart]].
Defined.

(** C1 at the failing input: the start date "not-a-date" is stored as an
    invalid date and the request is answered success. *)
Lemma post_bookings_unparsable_witness :
  Date_parse_iso "not-a-date" = None
  /\ exists doc,
       Part000.post_bookings Date_parse_iso jan1 trip_unparsable fresh_server
       = (Response 200 (JsonObject
            [("success", VJson (JBool true));
             ("message", VJson (JString "Booking created successfully"));
             ("bookingId", VObjectId 0)]),
          set_bookings [doc] 1%N fresh_server)
       /\ doc !! "startDate" = Some (VDate None).
Proof.
  split; [reflexivity | ].
  apply (post_bookings_stores_unparsable_date Date_parse_iso jan1
           trip_unparsable fresh_server "not-a-date" "2024-01-05");
    [reflexivity | reflexivity | reflexivity | reflexivity | reflexivity
     | left; reflexivity | constructor ].
Defined.


Lemma created_vehicle_witness :
  exists vehicle,
    (post_vehicles jan1 corolla fresh_server).1
    = Response 200 (JsonObject
        [("success", VJson (JBool true));
         ("message", VJson (JString "Vehicle added successfully"));
         ("insertedId", VObjectId 0)])
    /\ get_vehicles_id id0 one_vehicle = (Response 200 (JsonDocument vehicle), one_vehicle)
    /\ vehicle !! "createdAt" = Some (VDate (Some jan1))
    /\ forall k, k <> "_id" -> k <> "createdAt" ->
         vehicle !! k = VJson <$> corolla !! k.
Proof.
  apply (created_vehicle_is_read_back jan1 corolla fresh_server);
    [reflexivity | reflexivity | reflexivity | left; reflexivity
     | constructor | reflexivity ].
Defined.

Lemma deleted_booking_witness :
  delete_bookings_id id0 one_booking
  = (Response 200 (JsonObject
       [("success", VJson (JBool true));
        ("message", VJson (JString "Booking deleted successfully"))]),
     set_bookings [] (nextId one_booking) one_booking)
  /\ exists l,
       get_my_bookings (Some "a@x.com") (delete_bookings_id id0 one_booking).2
       = (Response 200 (JsonArray l), (delete_bookings_id id0 one_booking).2)
       /\ ~ In trip_stored l.
Proof.
  destruct (deleted_booking_is_not_listed id0 0%N one_booking [] [] trip_stored)
    as [Hdeleted Hlisted];
    [reflexivity | reflexivity | reflexivity | reflexivity
     | repeat constructor; apply not_elem_of_nil | ].
  split; [exact Hdeleted | ].
  destruct (Hlisted "a@x.com") as (l & Hl & Hgone & _); [discriminate | ].
  exists l. split; [exact Hl | exact Hgone].
Defined.

Lemma updated_vehicle_witness :
  exists vehicle,
    status (put_vehicles_id id0 rename one_vehicle).1 = 200
    /\ get_vehicles_id id0 (put_vehicles_id id0 rename one_vehicle).2
       = (Response 200 (JsonDocument vehicle),
          (put_vehicles_id id0 rename one_vehicle).2)
    /\ vehicle !! "vehicleName" = Some (VJson (JString "Camry"))
    /\ vehicle !! "pricePerDay" = Some (VJson JNull)
    /\ vehicle !! "userEmail" = Some (VJson (JString "a@x.com")).
Proof.
  destruct (updated_vehicle_is_read_back id0 0%N rename one_vehicle
              [] [] corolla_stored)
    as (vehicle & Hput & Hget & Hset & Hkeep);
    [reflexivity | reflexivity | reflexivity | constructor | reflexivity | ].
  exists vehicle. split; [exact Hput | split; [exact Hget | ]].
  split; [ | split].
  - apply (Hset "vehicleName"). simpl. tauto.
  - apply (Hset "pricePerDay"). simpl. tauto.
  - rewrite (Hkeep "userEmail") by (simpl; intuition discriminate). reflexivity.
Defined.

Example two_bookings_stored :
  (fun d => (d !! "userEmail", d !! "status")) <$> bookingsCollection two_bookings
  = [(Some (VJson (JString "a@x.com")), Some (VJson (JString "pending")));
     (Some (VJson (JString "b@x.com")), Some (VJson (JString "confirmed")))].
Proof. vm_compute. reflexivity. Qed.

Lemma booking_listings_witness :
  get_my_bookings (Some "") two_bookings
  = (Response 400 (failure_body "Email query parameter is required"), two_bookings)
  /\ exists l,
       get_my_bookings (Some "b@x.com") two_bookings
       = (Response 200 (JsonArray l), two_bookings)
       /\ Permutation l
            (List.filter (by_userEmail "b@x.com") (bookingsCollection two_bookings))
       /\ descending l.
Proof.
  split.
  - apply (proj1 (booking_listings two_bookings) (Some "")). right. reflexivity.
  - destruct (proj2 (booking_listings two_bookings) eq_refl "b@x.com")
      as (l & Hl & Hperm & _ & Hdesc & _); [discriminate | ].
    exists l. split; [exact Hl | split; [exact Hperm | exact Hdesc]].
Defined.



Lemma deleted_vehicle_witness :
  delete_vehicles_id id0 one_vehicle
  = (Response 200 (JsonObject
       [("success", VJson (JBool true));
        ("message", VJson (JString "Vehicle deleted successfully"))]),
     set_vehicles [] (nextId one_vehicle) one_vehicle)
  /\ get_vehicles_id id0 (delete_vehicles_id id0 one_vehicle).2
     = (Response 404 (failure_body "Vehicle not found"),
        (delete_vehicles_id id0 one_vehicle).2).
Proof.
  destruct (deleted_vehicle_is_gone id0 0%N one_vehicle [] [] corolla_stored)
    as (Hdeleted & _ & Hget & _);
    [reflexivity | reflexivity | reflexivity | reflexivity
     | repeat constructor; apply not_elem_of_nil | ].
  split; [exact Hdeleted | exact Hget].
Defined.

Lemma date_error_witness :
  Part000.post_bookings Date_parse_iso jan1 trip_unconvertible fresh_server
  = (Response 400 (failure_body "Invalid date format for startDate or endDate"),
     fresh_server).
Proof.
  apply (date_error_exactly_when Date_parse_iso jan1 trip_unconvertible fresh_server);
    reflexivity.
Defined.

Lemma booking_status_witness :
  exists doc,
    bookingsCollection
      (Part000.post_bookings Date_parse_iso jan2 trip_confirmed one_booking).2
    = (bookingsCollection one_booking ++ [doc])%list
    /\ doc !! "status" = Some (VJson (JString "confirmed"))
    /\ doc !! "createdAt" = Some (VDate (Some jan2)).
Proof.
  destruct (booking_status_is_kept_or_defaulted Date_parse_iso jan2
              trip_confirmed one_booking)
    with (stored := (Part000.post_bookings Date_parse_iso jan2
                       trip_confirmed one_booking).2)
    as (doc & Hdoc & Hkept & _ & Hcreated);
    [reflexivity | reflexivity | left; reflexivity
     | repeat constructor; discriminate
     | right; split; reflexivity | ].
  exists doc. split; [exact Hdoc | split; [ | exact Hcreated]].
  rewrite Hkept; reflexivity.
Defined.

Lemma put_vehicles_twice_witness :
  let once := put_vehicles_id id0 rename one_vehicle in
  let twice := put_vehicles_id id0 rename once.2 in
  twice.2 = once.2
  /\ twice.1 = Response 200 (JsonObject
                 [("success", VJson (JBool true));
                  ("message", VJson (JString "Vehicle updated successfully"));
                  ("modifiedCount", VJson (JNumber 0))]).
Proof.
  intros once twice.
  destruct (put_vehicles_twice id0 rename one_vehicle eq_refl)
    as (Hsame & _ & Hzero).
  split; [exact Hsame | apply Hzero; reflexivity].
Defined.

Lemma bookings_require_witness :
  Part000.post_bookings Date_parse_iso jan1
    (delete "endDate" trip_unconvertible) fresh_server
  = (Response 400 (failure_body
       "vehicleId, userEmail, startDate and endDate are required"), fresh_server).
Proof.
  apply (proj2 (bookings_require_four_fields Date_parse_iso jan1
                  (delete "endDate" trip_unconvertible) fresh_server
                  ltac:(right; right; right; reflexivity))).
Defined.

Lemma vehicles_may_repeat_witness :
  exists v1 v2,
    vehiclesCollection
      (post_vehicles jan2 corolla (post_vehicles jan1 corolla fresh_server).2).2
    = [v1; v2]
    /\ v1 !! "_id" = Some (VObjectId 0)
    /\ v2 !! "_id" = Some (VObjectId 1)
    /\ v1 !! "vehicleName" = v2 !! "vehicleName".
Proof.
  destruct (vehicles_may_repeat jan1 jan2 corolla fresh_server)
    as (v1 & v2 & Hdocs & _ & _ & Hid1 & Hid2 & Hsame);
    [reflexivity | reflexivity | reflexivity | left; reflexivity | constructor | ].
  exists v1, v2. split; [exact Hdocs | split; [exact Hid1 | split; [exact Hid2 | ]]].
  apply Hsame; discriminate.
Defined.
